(** * A shallow embedding of [src/data/database.py]

    The module builds SQL text from Python objects ([Field], [PrimaryKey],
    [Table]) and hands it to sqlite3 ([Database]).  The embedding follows
    the source function by function:

    - a Python [str] is a [string]; a character is read as the code point
      of the same number (code points below 256);
    - a Python value that reaches the layer untyped ([value], [start],
      [end]) is a [pyval];
    - a [dict] is a [gmap]; a [list] updated by index is a [list] with
      stdpp's lookup and insert, the out-of-range case written out;
    - an exception is a [Raise] outcome; sqlite3 is an interface
      ([Sqlite]) whose answers the layer only passes on, and where a
      property is about the rows of a query, a store that reads the
      statement as SQL does ([Relational]). *)

From Stdlib Require Import ZArith Ascii String DecimalString DecimalZ
  DecimalPos.
From stdpp Require Import gmap strings list fin_maps.

Local Open Scope string_scope.
Local Open Scope list_scope.
Local Open Scope stdpp_scope.

(** ** Python string primitives *)

Module Py.

(** [sep.join(items)] for a list of [str]. *)
Fixpoint join (sep : string) (items : list string) : string :=
  match items with
  | [] => ""
  | [x] => x
  | x :: rest => x +:+ sep +:+ join sep rest
  end.

(** [str.isspace] on one character: the code points below 256 that
    CPython classifies as whitespace (TAB..CR, FS..US, SPACE, NEL, NBSP). *)
Definition isspace (c : ascii) : bool :=
  let n := N_of_ascii c in
  ((9 <=? n) && (n <=? 13) || (28 <=? n) && (n <=? 32)
   || (n =? 133) || (n =? 160))%N.

(** The word under construction is emitted only when it is not empty. *)
Definition emit (word : string) : list string :=
  match word with
  | "" => []
  | _ => [word]
  end.

(** [s.split()] with no argument: runs of whitespace separate the words and
    no empty word is produced.  [word] is the word read so far. *)
Fixpoint split_from (word s : string) : list string :=
  match s with
  | "" => emit word
  | String c rest =>
      if isspace c then emit word ++ split_from "" rest
      else split_from (word +:+ String c "") rest
  end.

Definition split (s : string) : list string := split_from "" s.

(** [str.lower] on one character (code points below 256): A..Z and the
    Latin-1 capitals other than the multiplication sign move up by 32. *)
Definition lower_char (c : ascii) : ascii :=
  let n := N_of_ascii c in
  if ((65 <=? n) && (n <=? 90)
      || (192 <=? n) && (n <=? 222) && negb (n =? 215))%N
  then ascii_of_N (n + 32) else c.

Fixpoint lower (s : string) : string :=
  match s with
  | "" => ""
  | String c rest => String (lower_char c) (lower rest)
  end.

(** [s.find(sub)]: the lowest index at which [sub] occurs in [s], or -1.
    [i] is the index of the head of [s] in the original string. *)
Fixpoint find_from (i : Z) (sub s : string) : Z :=
  if String.prefix sub s then i
  else match s with
       | "" => (-1)%Z
       | String _ rest => find_from (i + 1) sub rest
       end.

Definition find (s sub : string) : Z := find_from 0 sub s.

(** [list.insert(i, x)] for [i >= 0]: past the end it appends. *)
Definition list_insert_at {A} (i : nat) (x : A) (l : list A) : list A :=
  take i l ++ x :: drop i l.

End Py.

(** ** Python values *)

(** The values the layer receives without a declared type.  [VObj s] is an
    object of any other class (a float, a datetime), known by what [str()]
    makes of it. *)
Inductive pyval :=
| VStr (s : string)
| VInt (z : Z)
| VNone
| VObj (repr : string).

#[global] Instance pyval_eq_dec : EqDecision pyval.
Proof. solve_decision. Defined.

(** [str(v)], which is also what an f-string field [{v}] renders. *)
Definition py_str (v : pyval) : string :=
  match v with
  | VStr s => s
  | VInt z => NilZero.string_of_int (Z.to_int z)
  | VNone => "None"
  | VObj repr => repr
  end.

Definition is_str (v : pyval) : bool :=
  match v with VStr _ => true | _ => false end.

(** ** class Field / class PrimaryKey(Field) *)

Inductive field_class := ClsField | ClsPrimaryKey.

#[global] Instance field_class_eq_dec : EqDecision field_class.
Proof. solve_decision. Defined.

(** [others] is [Some l] when the attribute is a list (of [str]) and [None]
    for anything else, the default [None] included: [to_list] only tests
    [isinstance(self.others, list)].  No method of the module assigns to an
    attribute of a field after [__init__], so an object is identified with
    its class and attribute values. *)
Record Field := mkField {
  cls : field_class;
  name : string;
  dtype : string;
  null : bool;
  others : option (list string)
}.

#[global] Instance Field_eq_dec : EqDecision Field.
Proof. solve_decision. Defined.

(** [Field.to_list]. *)
Definition Field_to_list (self : Field) : list string :=
  let elements := [name self; dtype self] in
  let elements := if negb (null self) then elements ++ ["NOT NULL"] else elements in
  match others self with
  | Some l => elements ++ l
  | None => elements
  end.

(** [to_list] with the method resolved on the object's class;
    [PrimaryKey.to_list] calls the inherited one and inserts at index 2. *)
Definition to_list (self : Field) : list string :=
  match cls self with
  | ClsField => Field_to_list self
  | ClsPrimaryKey => Py.list_insert_at 2 "PRIMARY KEY" (Field_to_list self)
  end.

(** [Field.to_str], inherited by [PrimaryKey]. *)
Definition to_str (self : Field) : string := Py.join " " (to_list self).

(** [PrimaryKey.id_as_primary]. *)
Definition id_as_primary : Field :=
  {| cls := ClsPrimaryKey; name := "id"; dtype := "INTEGER";
     null := false; others := None |}.

(** ** Exceptions *)

(** The exceptions the layer can let through: [KeyError] from a [dict]
    subscript, [IndexError] from a [list] subscript, [TypeError] from
    [str.join] over a non-[str] item, and whatever sqlite3 raises. *)
Inductive pyerr :=
| KeyError (key : string)
| IndexError
| TypeError
| StoreError (msg : string).

Inductive outcome (A : Type) :=
| Ok (a : A)
| Raise (e : pyerr).
Arguments Ok {A} a.
Arguments Raise {A} e.

(** A computation over a mutable state [St] that may raise; what was
    mutated before the exception stays mutated. *)
Definition M (St A : Type) : Type := St -> outcome A * St.

Definition ret {St A} (a : A) : M St A := fun st => (Ok a, st).

Definition raise {St A} (e : pyerr) : M St A := fun st => (Raise e, st).

Definition bind {St A B} (c : M St A) (k : A -> M St B) : M St B :=
  fun st => match c st with
            | (Ok a, st') => k a st'
            | (Raise e, st') => (Raise e, st')
            end.

Definition get {St} : M St St := fun st => (Ok st, st).

Definition put {St} (st : St) : M St unit := fun _ => (Ok tt, st).

Definition lift {St A} (o : outcome A) : M St A := fun st => (o, st).

(** Run a computation on one component of a pair of states. *)
Definition on_fst {St1 St2 A} (c : M St1 A) : M (St1 * St2) A :=
  fun st => match c (fst st) with (r, st1) => (r, (st1, snd st)) end.

Definition on_snd {St1 St2 A} (c : M St2 A) : M (St1 * St2) A :=
  fun st => match c (snd st) with (r, st2) => (r, (fst st, st2)) end.

Notation "x <- c ;; k" := (bind c (fun x => k))
  (at level 100, c at next level, right associativity).
Notation "c ;; k" := (bind c (fun _ => k))
  (at level 100, right associativity).

(** ** class Table *)

Record Table := mkTable {
  table_name : string;
  primary : Field;
  fields : gmap string Field
}.

(** [Table.__init__]: the loop [self.fields[field.name] = field] over
    [[primary] + fields]; a later field replaces an earlier one of the same
    name. *)
Definition Table_init (tname : string) (primary : Field)
    (fields : list Field) : Table :=
  {| table_name := tname;
     primary := primary;
     fields := foldl (fun d field => <[name field := field]> d) ∅
                     (primary :: fields) |}.

(** [Table.get_field]: a [dict] subscript. *)
Definition get_field (self : Table) (fname : string) : outcome Field :=
  match fields self !! fname with
  | Some f => Ok f
  | None => Raise (KeyError fname)
  end.

(** The test of [revise_data] on the lowered type name. *)
Definition is_textual (dtype : string) : bool :=
  String.eqb dtype "text" || negb (Py.find dtype "char" =? -1)%Z.

(** [Table.revise_data]. *)
Definition revise_data (self : Table) (field : string) (value : pyval)
    : outcome pyval :=
  match get_field self field with
  | Raise e => Raise e
  | Ok f =>
      let dtype := Py.lower (dtype f) in
      if is_textual dtype
      then Ok (VStr ("'" +:+ py_str value +:+ "'"))
      else Ok value
  end.

(** ** sqlite3 *)

Definition row : Type := list pyval.

(** What [cursor.execute] does to the database file: it raises, or it
    leaves new contents and the rows [fetchall] will return. *)
Inductive exec_result (Store : Type) :=
| Done (contents : Store) (rows : list row)
| Failed (msg : string).
Arguments Done {Store} contents rows.
Arguments Failed {Store} msg.

Class Sqlite (Store : Type) := {
  sql_execute : string -> Store -> exec_result Store;
  sql_commit : Store -> Store
}.

(** A store that accepts every statement and keeps the text of those
    executed; a query over it has no rows. *)
#[global] Instance recording_store : Sqlite (list string) := {|
  sql_execute sql contents := Done (contents ++ [sql]) [];
  sql_commit contents := contents
|}.

(** A store that rejects every statement. *)
Inductive locked_file := Locked.

#[global] Instance locked_store : Sqlite locked_file := {|
  sql_execute sql contents := Failed "database is locked";
  sql_commit contents := contents
|}.

(** ** The rows behind a range query

    sqlite3 is not part of the repository.  What it returns for the SELECT
    of a range query is fixed here by a reading of that statement,
    [SELECT * FROM table WHERE column <= n AND ...]: the text is cut into
    words, integers and symbols, parsed, and evaluated over the rows the
    store keeps. *)

Module Sql.

Inductive token :=
| TWord (w : string)
| TInt (n : Z)
| TSym (c : ascii).

(** The characters SQL treats as white space. *)
Definition blank (c : ascii) : bool :=
  existsb (Ascii.eqb c) [" "; "009"; "010"; "012"; "013"]%char.

(** The characters that stand for themselves. *)
Definition symbol (c : ascii) : bool :=
  existsb (Ascii.eqb c) [","; ";"; "*"; "<"; ">"; "="; "("; ")"; "'"]%char.

(** A run of other characters is a number when it reads as a decimal
    integer, and a word otherwise. *)
Definition classify (w : string) : token :=
  match NilZero.int_of_string w with
  | Some d => TInt (Z.of_int d)
  | None => TWord w
  end.

Definition flush (w : string) : list token :=
  match w with
  | "" => []
  | _ => [classify w]
  end.

Fixpoint tokens_from (w s : string) : list token :=
  match s with
  | "" => flush w
  | String c rest =>
      if blank c then flush w ++ tokens_from "" rest
      else if symbol c then flush w ++ TSym c :: tokens_from "" rest
      else tokens_from (w +:+ String c "") rest
  end.

Definition tokens (s : string) : list token := tokens_from "" s.

Inductive relop := Le | Ge.

Record comparison := mkComparison {
  c_column : string;
  c_op : relop;
  c_bound : Z
}.

(** [SELECT * FROM q_table WHERE] the conjunction of [q_where]. *)
Record query := mkQuery {
  q_table : string;
  q_where : list comparison
}.

(** Keywords are recognised whatever their case. *)
Definition keyword (k : string) (t : token) : bool :=
  match t with
  | TWord w => String.eqb (Py.lower w) k
  | _ => false
  end.

Definition relop_of (c1 c2 : ascii) : option relop :=
  if Ascii.eqb c2 "=" then
    if Ascii.eqb c1 "<" then Some Le
    else if Ascii.eqb c1 ">" then Some Ge
    else None
  else None.

(** [column <= n] or [column >= n], joined by [AND], up to the end of the
    statement or its semicolon. *)
Fixpoint parse_where (ts : list token) : option (list comparison) :=
  match ts with
  | TWord column :: TSym c1 :: TSym c2 :: TInt n :: rest =>
      match relop_of c1 c2 with
      | None => None
      | Some op =>
          let first := mkComparison column op n in
          match rest with
          | [] => Some [first]
          | [TSym c] => if Ascii.eqb c ";" then Some [first] else None
          | t :: rest' =>
              if keyword "and" t
              then option_map (cons first) (parse_where rest')
              else None
          end
      end
  | _ => None
  end.

Definition parse_select (ts : list token) : option query :=
  match ts with
  | t1 :: TSym c :: t2 :: TWord table :: t3 :: rest =>
      if keyword "select" t1 && Ascii.eqb c "*" && keyword "from" t2
         && keyword "where" t3
      then option_map (mkQuery table) (parse_where rest)
      else None
  | _ => None
  end.

(** A stored row: the values of the columns, by name, in column order. *)
Definition record : Type := list (string * pyval).

Fixpoint column_value (column : string) (r : record) : option pyval :=
  match r with
  | [] => None
  | (c, v) :: r' =>
      if String.eqb c column then Some v else column_value column r'
  end.

(** A comparison with an integer holds of a row whose column holds an
    integer in that relation; NULL compares to nothing. *)
Definition holds (c : comparison) (r : record) : bool :=
  match column_value (c_column c) r with
  | Some (VInt z) =>
      match c_op c with
      | Le => (z <=? c_bound c)%Z
      | Ge => (c_bound c <=? z)%Z
      end
  | _ => false
  end.

(** The rows [SELECT *] returns: those of which every comparison holds,
    each as the tuple of its values. *)
Definition selected (q : query) (recs : list record) : list row :=
  map (map snd)
    (filter (fun r => forallb (fun c => holds c r) (q_where q) = true) recs).

End Sql.

(** A store is relational when it keeps rows by table and answers the
    SELECT statements of the reading above with the rows selected,
    leaving its contents as they are. *)
Class Relational (Store : Type) `{Sqlite Store} := {
  stored : Store -> string -> option (list Sql.record);
  select_reads :
    forall (sql : string) (q : Sql.query) (contents : Store)
           (recs : list Sql.record),
    Sql.parse_select (Sql.tokens sql) = Some q ->
    stored contents (Sql.q_table q) = Some recs ->
    sql_execute sql contents = Done contents (Sql.selected q recs)
}.

(** A store that is nothing but its rows and understands nothing but
    these statements. *)
#[global] Instance row_store : Sqlite (gmap string (list Sql.record)) := {|
  sql_execute sql contents :=
    match Sql.parse_select (Sql.tokens sql) with
    | None => Failed "syntax error"
    | Some q =>
        match contents !! Sql.q_table q with
        | None => Failed "no such table"
        | Some recs => Done contents (Sql.selected q recs)
        end
    end;
  sql_commit contents := contents
|}.

#[global, refine] Instance row_store_relational
    : Relational (gmap string (list Sql.record)) := {|
  stored contents table := contents !! table
|}.
Proof.
  intros sql q contents recs Hq Hrecs. cbn. by rewrite Hq, Hrecs.
Defined.

(** ** class Database *)

(** The attributes of the object ([path], [config_path], [tables], and
    whether [conn] is open), the two files it owns, and the statements it
    has passed to [cursor.execute], oldest first. *)
Record Database (Store : Type) := mkDatabase {
  path : string;
  config_path : string;
  tables : gmap string Table;
  conn_open : bool;
  db_file : Store;
  config_file : option (gmap string Table);
  executed : list string
}.
Arguments mkDatabase {Store}.
Arguments path {Store}.
Arguments config_path {Store}.
Arguments tables {Store}.
Arguments conn_open {Store}.
Arguments db_file {Store}.
Arguments config_file {Store}.
Arguments executed {Store}.

(** [",".join(values)] over a list that may hold anything: the first item
    that is not a [str] raises [TypeError]. *)
Fixpoint str_items (values : list pyval) : outcome (list string) :=
  match values with
  | [] => Ok []
  | VStr s :: rest =>
      match str_items rest with
      | Ok l => Ok (s :: l)
      | Raise e => Raise e
      end
  | _ :: _ => Raise TypeError
  end.

Definition join_values (sep : string) (values : list pyval) : outcome string :=
  match str_items values with
  | Ok l => Ok (Py.join sep l)
  | Raise e => Raise e
  end.

(** The loop of [insert] over [enumerate(keys)], on the caller's list:
    [values[idx]] is read (IndexError), revised (KeyError) and written
    back. *)
Fixpoint revise_values (table : Table) (idx : nat) (keys : list string)
    : M (list pyval) unit :=
  match keys with
  | [] => ret tt
  | key :: keys' =>
      values <- get;;
      match values !! idx with
      | None => raise IndexError
      | Some v =>
          v' <- lift (revise_data table key v);;
          put (<[idx := v']> values);;
          revise_values table (S idx) keys'
      end
  end.

Section Database.
Context {Store : Type} `{Sqlite Store}.

Definition connect : M (Database Store) unit := fun self =>
  (Ok tt, mkDatabase (path self) (config_path self) (tables self) true
            (db_file self) (config_file self) (executed self)).

(** [close]: closes the connection and pickles [tables] to the side file. *)
Definition close : M (Database Store) unit := fun self =>
  (Ok tt, mkDatabase (path self) (config_path self) (tables self) false
            (db_file self) (Some (tables self)) (executed self)).

(** [cursor.execute(sql)], the rows being those [cursor.fetchall()] gives. *)
Definition execute (sql : string) : M (Database Store) (list row) := fun self =>
  let log := executed self ++ [sql] in
  match sql_execute sql (db_file self) with
  | Done contents rows =>
      (Ok rows, mkDatabase (path self) (config_path self) (tables self)
                  (conn_open self) contents (config_file self) log)
  | Failed msg =>
      (Raise (StoreError msg),
       mkDatabase (path self) (config_path self) (tables self)
         (conn_open self) (db_file self) (config_file self) log)
  end.

Definition commit : M (Database Store) unit := fun self =>
  (Ok tt, mkDatabase (path self) (config_path self) (tables self)
            (conn_open self) (sql_commit (db_file self)) (config_file self)
            (executed self)).

(** [self.tables[tname] = table]. *)
Definition set_table (tname : string) (table : Table) : M (Database Store) unit :=
  fun self =>
  (Ok tt, mkDatabase (path self) (config_path self)
            (<[tname := table]> (tables self)) (conn_open self)
            (db_file self) (config_file self) (executed self)).

(** [self.tables[tname]]. *)
Definition get_table (tname : string) : M (Database Store) Table := fun self =>
  match tables self !! tname with
  | Some table => (Ok table, self)
  | None => (Raise (KeyError tname), self)
  end.

(** [Database.create_table]. *)
Definition create_table (tname : string) (primary : Field)
    (fields : list Field) : M (Database Store) unit :=
  connect;;
  execute ("CREATE TABLE " +:+ tname +:+
           "(" +:+ to_str primary +:+ ", " +:+
           Py.join "," (map to_str fields) +:+ ");");;
  commit;;
  set_table tname (Table_init tname primary fields);;
  close.

(** [Database.insert], on the object and the caller's [values] list. *)
Definition insert (tname : string) (keys : list string)
    : M (Database Store * list pyval) unit :=
  on_fst connect;;
  table <- on_fst (get_table tname);;
  on_snd (revise_values table 0 keys);;
  values <- on_snd get;;
  joined <- lift (join_values "," values);;
  on_fst (execute ("INSERT INTO " +:+ tname +:+
                   " (" +:+ Py.join "," keys +:+ ") " +:+
                   "VALUES (" +:+ joined +:+ ")"));;
  on_fst commit;;
  on_fst close.

(** [start is None]. *)
Definition is_None (v : pyval) : bool :=
  match v with VNone => true | _ => false end.

(** [Database.search_by_range]; [columns = None] is the default.  Both
    conditions are built before the bounds are tested. *)
Definition search_by_range (tname key : string) (start end_ : pyval)
    (columns : option (list string)) : M (Database Store) (list row) :=
  connect;;
  let columns := match columns with None => ["*"] | Some l => l end in
  table <- get_table tname;;
  lo <- lift (revise_data table key (VStr (py_str start)));;
  let start_condition := key +:+ ">=" +:+ py_str lo in
  hi <- lift (revise_data table key (VStr (py_str end_)));;
  let end_condition := key +:+ "<=" +:+ py_str hi in
  let select_cmd := "SELECT " +:+ Py.join "," columns +:+ " from " +:+ tname in
  data <- (if is_None start then
             execute (select_cmd +:+ " where " +:+ end_condition +:+ ";")
           else if is_None end_ then
             execute (select_cmd +:+ " where " +:+ start_condition +:+ ";")
           else
             execute (select_cmd +:+ " where " +:+ start_condition +:+
                      " and " +:+ end_condition +:+ ";"));;
  close;;
  ret data.

(** [Database.delete_by_time]. *)
Definition delete_by_time (tname time_key : string) (start end_ : pyval)
    : M (Database Store) unit :=
  connect;;
  table <- get_table tname;;
  lo <- lift (revise_data table time_key (VStr (py_str start)));;
  let start_condition := time_key +:+ ">=" +:+ py_str lo in
  hi <- lift (revise_data table time_key (VStr (py_str end_)));;
  let end_condition := time_key +:+ "<=" +:+ py_str hi in
  (if is_None start then
     execute ("DELETE from " +:+ tname +:+ " where " +:+ end_condition)
   else if is_None end_ then
     execute ("DELETE from " +:+ tname +:+ " where " +:+ start_condition)
   else
     execute ("DELETE from " +:+ tname +:+ " where " +:+ start_condition +:+
              " and " +:+ end_condition));;
  commit;;
  close.

(** [Database.select]; [self.tables] is not consulted. *)
Definition select (tname : string) (columns : option (list string))
    : M (Database Store) (list row) :=
  connect;;
  let columns := match columns with None => ["*"] | Some l => l end in
  data <- execute ("SELECT " +:+ Py.join "," columns +:+ " from " +:+ tname);;
  close;;
  ret data.

(** [Database.search]. *)
Definition search (tname key : string) (value : pyval)
    (columns : option (list string)) : M (Database Store) (list row) :=
  connect;;
  let columns := match columns with None => ["*"] | Some l => l end in
  table <- get_table tname;;
  v <- lift (revise_data table key value);;
  data <- execute ("SELECT " +:+ Py.join "," columns +:+ " from " +:+
                   tname +:+ " " +:+
                   "where " +:+ key +:+ "=" +:+ py_str v);;
  close;;
  ret data.

(** The list comprehension of [update] over [enumerate(keys)]:
    [field + '=' + str(table.revise_data(field, values[idx]))]; the
    caller's list is only read. *)
Fixpoint update_items (table : Table) (idx : nat) (keys : list string)
    (values : list pyval) : outcome (list string) :=
  match keys with
  | [] => Ok []
  | field :: keys' =>
      match values !! idx with
      | None => Raise IndexError
      | Some v =>
          match revise_data table field v with
          | Raise e => Raise e
          | Ok v' =>
              match update_items table (S idx) keys' values with
              | Raise e => Raise e
              | Ok items => Ok ((field +:+ "=" +:+ py_str v') :: items)
              end
          end
      end
  end.

(** [Database.update]; [key = None] is the default. *)
Definition update (tname : string) (keys : list string)
    (values : list pyval) (key : option string) (value : pyval)
    : M (Database Store) unit :=
  connect;;
  table <- get_table tname;;
  items <- lift (update_items table 0 keys values);;
  let update_seq := Py.join "," items in
  where_ <- match key with
            | None => ret ""
            | Some key =>
                v <- lift (revise_data table key value);;
                ret ("where " +:+ key +:+ "=" +:+ py_str v)
            end;;
  execute ("UPDATE " +:+ tname +:+ " set " +:+
           update_seq +:+ " " +:+ where_ +:+ ";");;
  commit;;
  close.

(** [Database.delete]. *)
Definition delete (tname key : string) (value : pyval)
    : M (Database Store) unit :=
  connect;;
  table <- get_table tname;;
  v <- lift (revise_data table key value);;
  execute ("DELETE from " +:+ tname +:+ " " +:+
           "where " +:+ key +:+ "=" +:+ py_str v);;
  commit;;
  close.

(** [Database.__init__], given what the two files hold ([config = None]:
    there is no side file): [tables] is unpickled from the side file, or
    empty on FileNotFoundError, and [close] is called. *)
Definition Database_init (path config_path : string) (file : Store)
    (config : option (gmap string Table)) : Database Store :=
  let tables := match config with Some t => t | None => ∅ end in
  snd (close (mkDatabase path config_path tables true file config [])).

End Database.

(** ** Objects used in the examples *)

(** A table with a TEXT column "name" and an INTEGER column "age". *)
Definition people : Table :=
  Table_init "people" id_as_primary
    [mkField ClsField "name" "TEXT" true None;
     mkField ClsField "age" "INTEGER" true None].

(** A freshly constructed [Database] that already knows [people]. *)
Definition people_db {Store} (file : Store) : Database Store :=
  mkDatabase "data.db" "database_config.pkl" {["people" := people]} false
             file (Some {["people" := people]}) [].


(** ** Vocabulary of the properties *)

(** A word: not empty and free of whitespace. *)
Fixpoint no_space (s : string) : bool :=
  match s with
  | "" => true
  | String c rest => negb (Py.isspace c) && no_space rest
  end.

Definition is_word (s : string) : bool :=
  negb (String.eqb s "") && no_space s.

(** [sub] occurs somewhere in [s]. *)
Definition substring (sub s : string) : Prop :=
  exists pre post : string, s = pre +:+ sub +:+ post.

(** A declared type is textual when, case ignored, it is "text" or has
    "char" in it. *)
Definition textual_type (dtype : string) : Prop :=
  Py.lower dtype = "text" \/ substring "char" (Py.lower dtype).

(** The value between a pair of single quotes. *)
Definition quoted (value : pyval) : pyval :=
  VStr ("'" +:+ py_str value +:+ "'").

(** [key] is a column of [table]. *)
Definition declared (table : Table) (key : string) : Prop :=
  is_Some (fields table !! key).

(** What [revise_data] returns for a declared column. *)
Definition revised (table : Table) (key : string) (v : pyval) : pyval :=
  match revise_data table key v with
  | Ok v' => v'
  | Raise _ => v
  end.

(** The caller's list once each value that has a key is revised; values
    past the last key are left as they are. *)
Definition revise_all (table : Table) (keys : list string)
    (values : list pyval) : list pyval :=
  zip_with (revised table) keys values ++ drop (length keys) values.

(** What the caller sees of a statement the store has answered. *)
Definition verdict {Store} (res : exec_result Store) : outcome unit :=
  match res with
  | Done _ _ => Ok tt
  | Failed msg => Raise (StoreError msg)
  end.

(** The text [insert] builds from the keys and the (revised) values. *)
Definition insert_sql (tname : string) (keys : list string)
    (values : list pyval) : string :=
  "INSERT INTO " +:+ tname +:+ " (" +:+ Py.join "," keys +:+ ") " +:+
  "VALUES (" +:+ Py.join "," (map py_str values) +:+ ")".

(** What the caller of a query sees of the store's answer. *)
Definition answer {Store} (res : exec_result Store) : outcome (list row) :=
  match res with
  | Done _ rows => Ok rows
  | Failed msg => Raise (StoreError msg)
  end.

(** A bound as it appears in a predicate on column [f]: its [str()],
    between quotes when the column is textual. *)
Definition bound_text (f : Field) (v : pyval) : string :=
  if is_textual (Py.lower (dtype f))
  then "'" +:+ py_str v +:+ "'" else py_str v.

(** The SELECT clause of a query over [columns] (all of them by default). *)
Definition select_text (tname : string) (columns : option (list string))
    : string :=
  "SELECT " +:+ Py.join "," (default ["*"] columns) +:+ " from " +:+ tname.

(** The predicate of a range over [key]: no lower bound when [start] is
    None, no upper bound when [end] is None, both bounds otherwise. *)
Definition range_predicate (key : string) (f : Field) (start end_ : pyval)
    : string :=
  if is_None start then key +:+ "<=" +:+ bound_text f end_
  else if is_None end_ then key +:+ ">=" +:+ bound_text f start
  else key +:+ ">=" +:+ bound_text f start +:+ " and " +:+
       key +:+ "<=" +:+ bound_text f end_.

(** A call of one of the public methods of [Database], with its
    arguments. *)
Inductive call :=
| CreateTable (tname : string) (primary : Field) (fields : list Field)
| Insert (tname : string) (keys : list string) (values : list pyval)
| Select (tname : string) (columns : option (list string))
| Search (tname key : string) (value : pyval)
    (columns : option (list string))
| SearchByRange (tname key : string) (start end_ : pyval)
    (columns : option (list string))
| Update (tname : string) (keys : list string) (values : list pyval)
    (key : option string) (value : pyval)
| Delete (tname key : string) (value : pyval)
| DeleteByTime (tname time_key : string) (start end_ : pyval).

(** The exception a computation ended with, if any. *)
Definition failure {A} (o : outcome A) : option pyerr :=
  match o with
  | Ok _ => None
  | Raise e => Some e
  end.

(** The call made on [self]: the exception it raised, if any, and the
    object afterwards. *)
Definition perform {Store} `{Sqlite Store} (c : call)
    (self : Database Store) : option pyerr * Database Store :=
  match c with
  | CreateTable tname pk l =>
      let run := create_table tname pk l self in (failure (fst run), snd run)
  | Insert tname keys values =>
      let run := insert tname keys (self, values) in
      (failure (fst run), fst (snd run))
  | Select tname columns =>
      let run := select tname columns self in (failure (fst run), snd run)
  | Search tname key value columns =>
      let run := search tname key value columns self in
      (failure (fst run), snd run)
  | SearchByRange tname key start end_ columns =>
      let run := search_by_range tname key start end_ columns self in
      (failure (fst run), snd run)
  | Update tname keys values key value =>
      let run := update tname keys values key value self in
      (failure (fst run), snd run)
  | Delete tname key value =>
      let run := delete tname key value self in (failure (fst run), snd run)
  | DeleteByTime tname key start end_ =>
      let run := delete_by_time tname key start end_ self in
      (failure (fst run), snd run)
  end.

(** A sequence of calls on one object, each made whether or not the
    previous one raised. *)
Definition session {Store} `{Sqlite Store} (calls : list call)
    (self : Database Store) : Database Store :=
  foldl (fun self c => snd (perform c self)) self calls.

(** The exceptions of the layer itself, as opposed to those of the store. *)
Definition layer_error (e : pyerr) : Prop :=
  match e with
  | StoreError _ => False
  | _ => True
  end.

(** The table name a call would record, when it is a [create_table]. *)
Definition creates (c : call) : option string :=
  match c with
  | CreateTable tname _ _ => Some tname
  | _ => None
  end.

(** The SET clause of [update] for keys that all have a value. *)
Definition set_text (table : Table) (keys : list string)
    (values : list pyval) : string :=
  Py.join ","
    (zip_with (fun field v => field +:+ "=" +:+ py_str (revised table field v))
              keys values).

(** The WHERE clause of [update]; empty without a search key. *)
Definition where_text (table : Table) (key : option string) (value : pyval)
    : string :=
  match key with
  | None => ""
  | Some key => "where " +:+ key +:+ "=" +:+ py_str (revised table key value)
  end.

(** The fields of a list that bear the name [n], in order. *)
Definition named (n : string) (l : list Field) : list Field :=
  filter (fun f => name f = n) l.

(** How a call can end, seen from the object [self] it was made on.
    - [refused]: the layer raised before any statement; the connection
      stays open and nothing else has changed.
    - [rejected]: the store raised on the one statement executed; the
      connection stays open, the side file is not rewritten.
    - [answered]: the store accepted the one statement executed; the
      connection is closed and the side file holds the map of tables. *)
Inductive ending {Store} `{Sqlite Store} (self : Database Store)
    : option pyerr -> Database Store -> Prop :=
| refused (e : pyerr) :
    layer_error e ->
    ending self (Some e)
      (mkDatabase (path self) (config_path self) (tables self) true
         (db_file self) (config_file self) (executed self))
| rejected (sql msg : string) :
    sql_execute sql (db_file self) = Failed msg ->
    ending self (Some (StoreError msg))
      (mkDatabase (path self) (config_path self) (tables self) true
         (db_file self) (config_file self) (executed self ++ [sql]))
| answered (sql : string) (contents file : Store) (rows : list row)
    (tables' : gmap string Table) :
    sql_execute sql (db_file self) = Done contents rows ->
    file = contents \/ file = sql_commit contents ->
    ending self None
      (mkDatabase (path self) (config_path self) tables' false
         file (Some tables') (executed self ++ [sql])).

(** Which calls can end with which exception of the layer. *)
Definition may_raise (c : call) (e : pyerr) : Prop :=
  match e, c with
  | StoreError _, _ => True
  | _, (CreateTable _ _ _ | Select _ _) => False
  | KeyError _, _ => True
  | IndexError, (Insert _ _ _ | Update _ _ _ _ _) => True
  | TypeError, Insert _ _ _ => True
  | _, _ => False
  end.

(** A character that is part of a word or of a number. *)
Definition word_char (c : ascii) : bool :=
  negb (Sql.blank c) && negb (Sql.symbol c).

(** A string of such characters. *)
Fixpoint plain (s : string) : bool :=
  match s with
  | "" => true
  | String c rest => word_char c && plain rest
  end.

(** An ASCII letter or the underscore. *)
Definition is_alpha (c : ascii) : bool :=
  let n := N_of_ascii c in
  ((65 <=? n) && (n <=? 90) || (97 <=? n) && (n <=? 122) || (n =? 95))%N.

(** An ASCII digit. *)
Definition is_digit (c : ascii) : bool :=
  let n := N_of_ascii c in ((48 <=? n) && (n <=? 57))%N.

(** A string of letters, digits and underscores. *)
Fixpoint alnum (s : string) : bool :=
  match s with
  | "" => true
  | String c rest => (is_alpha c || is_digit c) && alnum rest
  end.

(** A letter or underscore, then letters, digits and underscores. *)
Definition identifier (s : string) : bool :=
  match s with
  | "" => false
  | String c rest => is_alpha c && alnum rest
  end.

(** The column [key] of the row holds an integer that satisfies [p]. *)
Definition key_in (key : string) (p : Z -> bool) (r : Sql.record) : bool :=
  match Sql.column_value key r with
  | Some (VInt z) => p z
  | _ => false
  end.

(** The rows whose [key] is an integer satisfying [p], as tuples. *)
Definition rows_where (key : string) (p : Z -> bool)
    (recs : list Sql.record) : list row :=
  map (map snd) (filter (fun r => key_in key p r = true) recs).

(** Five rows for [people]; one has no age. *)
Definition people_rows : list Sql.record :=
  [[("id", VInt 1); ("name", VStr "Alice"); ("age", VInt 30)];
   [("id", VInt 2); ("name", VStr "Bob"); ("age", VInt 7)];
   [("id", VInt 3); ("name", VStr "Carol"); ("age", VInt 10)];
   [("id", VInt 4); ("name", VStr "Dan"); ("age", VNone)];
   [("id", VInt 5); ("name", VStr "Eve"); ("age", VInt 4)]].

(** * Properties *)

(** ** Splitting and joining *)

Lemma string_app_nil_l (s : string) : "" +:+ s = s.
Proof. reflexivity. Qed.

Lemma string_app_cons (c : ascii) (s t : string) :
  String c s +:+ t = String c (s +:+ t).
Proof. reflexivity. Qed.

Lemma string_app_nil_r (s : string) : s +:+ "" = s.
Proof.
  induction s as [|c s IH]; [done |]. by rewrite string_app_cons, IH.
Qed.

Lemma string_app_assoc (a b c : string) : (a +:+ b) +:+ c = a +:+ (b +:+ c).
Proof.
  induction a as [|x a IH]; [done |]. by rewrite !string_app_cons, IH.
Qed.

Lemma no_space_app (a b : string) :
  no_space (a +:+ b) = no_space a && no_space b.
Proof.
  induction a as [|x a IH]; [done |].
  rewrite string_app_cons. cbn [no_space]. rewrite IH. by rewrite andb_assoc.
Qed.

Lemma emit_word (w : string) : is_word w -> Py.emit w = [w].
Proof. by destruct w. Qed.

(** A separator ends the word being read and starts afresh. *)
Lemma split_from_sep (s1 : string) : forall (w : string) (c : ascii) (s2 : string),
  Py.isspace c = true ->
  Py.split_from w (s1 +:+ String c s2)
  = Py.split_from w s1 ++ Py.split_from "" s2.
Proof.
  induction s1 as [|a s1 IH]; intros w c s2 Hc.
  - rewrite string_app_nil_l. cbn [Py.split_from]. by rewrite Hc.
  - rewrite string_app_cons. cbn [Py.split_from]. destruct (Py.isspace a).
    + by rewrite IH, app_assoc.
    + by apply IH.
Qed.

(** Without whitespace the whole input extends the word being read. *)
Lemma split_from_no_space (s : string) : forall w : string,
  no_space s -> Py.split_from w s = Py.emit (w +:+ s).
Proof.
  induction s as [|a s IH]; intros w Hs.
  - by rewrite string_app_nil_r.
  - cbn [no_space] in Hs. apply andb_prop_elim in Hs as [Ha Hs].
    cbn [Py.split_from]. destruct (Py.isspace a); [done |].
    rewrite IH by done. by rewrite string_app_assoc.
Qed.

Lemma split_word (s : string) : is_word s -> Py.split s = [s].
Proof.
  intros Hs. unfold Py.split.
  rewrite split_from_no_space; [by apply emit_word |].
  unfold is_word in Hs. by apply andb_prop_elim in Hs as [_ ?].
Qed.

(** Whatever [split] returns is made of words. *)
Lemma split_from_words (s : string) : forall w : string,
  no_space w -> Forall (fun x => is_word x) (Py.split_from w s).
Proof.
  assert (Hemit : forall w : string, no_space w ->
            Forall (fun x => is_word x) (Py.emit w)).
  { intros [|c w] Hw; simpl; [constructor |].
    repeat constructor. exact Hw. }
  induction s as [|a s IH]; intros w Hw; simpl.
  - by apply Hemit.
  - destruct (Py.isspace a) eqn:Ha.
    + apply Forall_app. split; [by apply Hemit | by apply IH].
    + apply IH. rewrite no_space_app. simpl. rewrite Ha. simpl.
      by rewrite andb_true_r.
Qed.

Lemma split_words (s : string) : Forall (fun x => is_word x) (Py.split s).
Proof. by apply split_from_words. Qed.

(** Splitting a space-joined list splits each item in turn. *)
Lemma split_join (l : list string) :
  Py.split (Py.join " " l) = concat (map Py.split l).
Proof.
  induction l as [|x [|y l] IH].
  - done.
  - simpl. by rewrite app_nil_r.
  - change (Py.join " " (x :: y :: l))
      with (x +:+ String " "%char (Py.join " " (y :: l))).
    unfold Py.split in *. rewrite split_from_sep by done.
    by rewrite IH.
Qed.

Lemma concat_split_words (l : list string) :
  Forall (fun x => is_word x) l -> concat (map Py.split l) = l.
Proof.
  induction 1 as [|x l Hx _ IH]; simpl; [done |].
  by rewrite split_word, IH.
Qed.

(** The tokens of a field are all words exactly for a nullable plain
    [Field] whose own attributes are words: "NOT NULL" and "PRIMARY KEY"
    are tokens of two words. *)
Lemma to_list_words (f : Field) :
  Forall (fun x => is_word x) (to_list f) <->
  cls f = ClsField /\ null f = true /\ is_word (name f) /\ is_word (dtype f)
  /\ Forall (fun x => is_word x) (default [] (others f)).
Proof.
  assert (Hnn : ~ is_word "NOT NULL") by (vm_compute; tauto).
  assert (Hpk : ~ is_word "PRIMARY KEY") by (vm_compute; tauto).
  destruct f as [c n d nl o].
  unfold to_list, Field_to_list, Py.list_insert_at.
  destruct c, nl, o as [l|]; cbn;
    rewrite ?Forall_app, ?Forall_cons, ?Forall_app, ?Forall_cons, ?Forall_nil;
    intuition (discriminate || auto).
Qed.

(** C1 (as amended).  Splitting [to_str()] on whitespace gives [to_list()]
    back exactly when every token is a single word, that is for a plain,
    nullable [Field] whose name, type and extra modifiers are non-empty and
    free of whitespace; a "NOT NULL" or "PRIMARY KEY" token comes back as
    two words. *)
Theorem split_to_str_iff (f : Field) :
  Py.split (to_str f) = to_list f <->
  cls f = ClsField /\ null f = true /\ is_word (name f) /\ is_word (dtype f)
  /\ Forall (fun x => is_word x) (default [] (others f)).
Proof.
  rewrite <- to_list_words. unfold to_str. split.
  - intros Heq. rewrite <- Heq. apply split_words.
  - intros Hall. rewrite split_join. by apply concat_split_words.
Qed.

(** C1, the claim as stated, fails on a non-nullable field: the token
    "NOT NULL" is split in two. *)
Lemma split_to_str_not_null :
  let f := mkField ClsField "age" "INTEGER" false None in
  to_list f = ["age"; "INTEGER"; "NOT NULL"] /\
  Py.split (to_str f) = ["age"; "INTEGER"; "NOT"; "NULL"] /\
  Py.split (to_str f) <> to_list f.
Proof. repeat split. discriminate. Qed.

(** C1 on a plain nullable field with a modifier of one word. *)
Lemma split_to_str_plain :
  let f := mkField ClsField "name" "TEXT" true (Some ["UNIQUE"]) in
  Py.split (to_str f) = ["name"; "TEXT"; "UNIQUE"] /\
  to_list f = ["name"; "TEXT"; "UNIQUE"].
Proof.
  intros f. split; [| reflexivity].
  apply (proj2 (split_to_str_iff f)).
  repeat split; repeat constructor.
Defined.

(** C2 (as amended).  [PrimaryKey.id_as_primary()] is a [PrimaryKey] named
    "id" of type "INTEGER", non-nullable, with "PRIMARY KEY" as its third
    token; being non-nullable it renders as
    "id INTEGER PRIMARY KEY NOT NULL". *)
Theorem id_as_primary_spec :
  cls id_as_primary = ClsPrimaryKey /\
  name id_as_primary = "id" /\
  dtype id_as_primary = "INTEGER" /\
  null id_as_primary = false /\
  to_list id_as_primary !! 2%nat = Some "PRIMARY KEY" /\
  to_str id_as_primary = "id INTEGER PRIMARY KEY NOT NULL".
Proof. repeat split. Qed.

(** C2, the rendering as stated, is not what the code produces. *)
Lemma id_as_primary_not_bare :
  to_str id_as_primary <> "id INTEGER PRIMARY KEY".
Proof. discriminate. Qed.

(** ** Textual types *)

Lemma prefix_spec (sub : string) : forall s : string,
  String.prefix sub s = true <-> exists post : string, s = sub +:+ post.
Proof.
  induction sub as [|a sub IH]; intros s.
  - split; [intros _; by exists s | by destruct s].
  - destruct s as [|b s]; cbn [String.prefix].
    + split; [done | by intros [post Hpost]].
    + destruct (Ascii.ascii_dec a b) as [->|Hab].
      * rewrite IH. split; intros [post Hpost]; exists post.
        -- by rewrite string_app_cons, <- Hpost.
        -- rewrite string_app_cons in Hpost. by injection Hpost.
      * split; [done |]. intros [post Hpost].
        rewrite string_app_cons in Hpost. by injection Hpost.
Qed.

Lemma substring_here (sub s : string) :
  String.prefix sub s = true -> substring sub s.
Proof.
  intros [post ->]%prefix_spec. by exists "", post.
Qed.

Lemma substring_cons (sub : string) (c : ascii) (s : string) :
  substring sub (String c s) <->
  String.prefix sub (String c s) = true \/ substring sub s.
Proof.
  split.
  - intros ([|a pre] & post & Heq).
    + left. apply prefix_spec. by exists post.
    + right. rewrite string_app_cons in Heq. injection Heq as _ ->.
      by exists pre, post.
  - intros [Hp|(pre & post & ->)].
    + by apply substring_here.
    + by exists (String c pre), post.
Qed.

Lemma substring_nil (sub : string) :
  substring sub "" <-> String.prefix sub "" = true.
Proof.
  split; [| apply substring_here].
  intros ([|a pre] & post & Heq); [| done].
  apply prefix_spec. by exists post.
Qed.

(** [find] answers -1 exactly when there is no occurrence. *)
Lemma find_from_spec (sub s : string) : forall i : Z,
  (0 <= i)%Z ->
  (Py.find_from i sub s = (-1)%Z /\ ~ substring sub s) \/
  (i <= Py.find_from i sub s /\ substring sub s)%Z.
Proof.
  induction s as [|c s IH]; intros i Hi; cbn [Py.find_from].
  - destruct (String.prefix sub "") eqn:Hp.
    + right. split; [lia | by apply substring_here].
    + left. split; [done |]. rewrite substring_nil. congruence.
  - destruct (String.prefix sub (String c s)) eqn:Hp.
    + right. split; [lia | by apply substring_here].
    + destruct (IH (i + 1)%Z ltac:(lia)) as [[Hf Hn]|[Hf Hs]].
      * left. split; [done |]. rewrite substring_cons. intros [?|?]; congruence.
      * right. split; [lia |]. apply substring_cons. by right.
Qed.

Lemma find_substring (s sub : string) :
  Py.find s sub <> (-1)%Z <-> substring sub s.
Proof.
  unfold Py.find.
  destruct (find_from_spec sub s 0 ltac:(lia)) as [[Hf Hn]|[Hf Hs]].
  - split; [congruence | done].
  - split; [done | lia].
Qed.

(** The test of the code decides [textual_type]. *)
Lemma is_textual_spec (dtype : string) :
  is_textual (Py.lower dtype) = true <-> textual_type dtype.
Proof.
  unfold is_textual, textual_type.
  rewrite orb_true_iff, String.eqb_eq, negb_true_iff, Z.eqb_neq.
  by rewrite find_substring.
Qed.

Lemma revise_data_found (t : Table) (field : string) (value : pyval)
    (f : Field) :
  fields t !! field = Some f ->
  revise_data t field value
  = Ok (if is_textual (Py.lower (dtype f)) then quoted value else value).
Proof.
  intros Hf. unfold revise_data, get_field. rewrite Hf.
  by destruct (is_textual _).
Qed.

(** C4.  For a declared field, [revise_data(field, value)] returns the
    value between single quotes when the declared type, case ignored, is
    "text" or contains "char", and the value itself for every other type. *)
Theorem revise_data_spec (t : Table) (field : string) (value : pyval)
    (f : Field) :
  fields t !! field = Some f ->
  (textual_type (dtype f) /\ revise_data t field value = Ok (quoted value))
  \/ (~ textual_type (dtype f) /\ revise_data t field value = Ok value).
Proof.
  intros Hf. rewrite (revise_data_found _ _ _ _ Hf).
  destruct (is_textual (Py.lower (dtype f))) eqn:Ht.
  - left. split; [by apply is_textual_spec | done].
  - right. split; [| done]. rewrite <- is_textual_spec. congruence.
Qed.

(** C4 on the table of the example: "Alice" in the TEXT column becomes
    "'Alice'", 30 in the INTEGER column stays 30. *)
Lemma revise_data_people :
  fields people !! "name" = Some (mkField ClsField "name" "TEXT" true None) /\
  fields people !! "age" = Some (mkField ClsField "age" "INTEGER" true None) /\
  revise_data people "name" (VStr "Alice") = Ok (VStr "'Alice'") /\
  revise_data people "age" (VInt 30) = Ok (VInt 30).
Proof.
  split; [reflexivity |]. split; [reflexivity |]. split.
  - destruct (revise_data_spec people "name" (VStr "Alice") _ eq_refl)
      as [[_ Hr]|[Hn _]]; [exact Hr |].
    exfalso. apply Hn. left. reflexivity.
  - destruct (revise_data_spec people "age" (VInt 30) _ eq_refl)
      as [[Ht _]|[_ Hr]]; [| exact Hr].
    apply is_textual_spec in Ht. discriminate Ht.
Defined.

(** ** Tables *)

(** An entry survives the loop of [Table.__init__] when no later field
    bears its name. *)
Lemma fields_loop_keeps (k : string) (p : Field) (l : list Field) :
  forall d : gmap string Field,
  d !! k = Some p ->
  Forall (fun f => name f <> k) l ->
  foldl (fun d field => <[name field := field]> d) d l !! k = Some p.
Proof.
  induction l as [|f l IH]; intros d Hd Hl; [done |].
  apply Forall_cons in Hl as [Hf Hl]. cbn [foldl].
  apply IH; [| done]. by rewrite lookup_insert_ne.
Qed.

(** C8 (as amended).  A [Table] built from a primary key and a list of
    fields none of which bears the primary key's name has the primary key
    under its own name in [fields] (and as [primary]). *)
Theorem Table_init_primary (tname : string) (pk : Field) (l : list Field) :
  Forall (fun f => name f <> name pk) l ->
  fields (Table_init tname pk l) !! name pk = Some pk /\
  primary (Table_init tname pk l) = pk.
Proof.
  intros Hl. split; [| done].
  unfold Table_init. cbn [fields foldl].
  apply fields_loop_keeps; [| done]. apply lookup_insert_eq.
Qed.

Lemma Table_init_primary_people :
  Forall (fun f => name f <> name id_as_primary)
    [mkField ClsField "name" "TEXT" true None;
     mkField ClsField "age" "INTEGER" true None] /\
  fields people !! "id" = Some id_as_primary.
Proof.
  assert (Hl : Forall (fun f => name f <> name id_as_primary)
                 [mkField ClsField "name" "TEXT" true None;
                  mkField ClsField "age" "INTEGER" true None]).
  { repeat constructor; discriminate. }
  split; [exact Hl |].
  exact (proj1 (Table_init_primary "people" id_as_primary _ Hl)).
Defined.

(** C8, the claim as stated, fails when a field has the primary key's
    name: the later assignment replaces the primary key in [fields]. *)
Lemma Table_init_primary_replaced :
  let shadow := mkField ClsField "id" "TEXT" true None in
  let t := Table_init "t" id_as_primary [shadow] in
  fields t !! name id_as_primary = Some shadow /\
  fields t !! name id_as_primary <> Some id_as_primary.
Proof. split; [reflexivity | discriminate]. Qed.

(** ** Database *)

Section DatabaseProperties.
Context {Store : Type} `{Sqlite Store}.

(** C7.  [create_table] executes one statement.  When the store accepts
    it, the call returns and [tables] has the new [Table] under [tname];
    when the store raises, the error reaches the caller and [tables] is as
    it was. *)
Theorem create_table_spec (self : Database Store) (tname : string)
    (pk : Field) (l : list Field) :
  exists sql : string,
    executed (snd (create_table tname pk l self)) = executed self ++ [sql] /\
    match sql_execute sql (db_file self) with
    | Done _ _ =>
        fst (create_table tname pk l self) = Ok tt /\
        tables (snd (create_table tname pk l self))
        = <[tname := Table_init tname pk l]> (tables self)
    | Failed msg =>
        fst (create_table tname pk l self) = Raise (StoreError msg) /\
        tables (snd (create_table tname pk l self)) = tables self
    end.
Proof.
  eexists. unfold create_table, bind, connect, execute, commit, set_table,
    close. cbn.
  destruct (sql_execute _ (db_file self)) as [contents rows|msg] eqn:Hx;
    cbn; (split; [reflexivity |]); rewrite Hx; by split.
Qed.

End DatabaseProperties.

(** ** The revision loop of [insert] *)

Lemma revise_data_declared (table : Table) (key : string) (v : pyval) :
  declared table key -> revise_data table key v = Ok (revised table key v).
Proof.
  intros [f Hf]. unfold revised.
  by rewrite (revise_data_found _ _ _ _ Hf).
Qed.

Lemma revise_all_nil_keys (table : Table) (values : list pyval) :
  revise_all table [] values = values.
Proof. done. Qed.

Lemma revise_all_nil_values (table : Table) (keys : list string) :
  revise_all table keys [] = [].
Proof. unfold revise_all. by destruct keys. Qed.

Lemma revise_all_cons (table : Table) (key : string) (keys : list string)
    (v : pyval) (values : list pyval) :
  revise_all table (key :: keys) (v :: values)
  = revised table key v :: revise_all table keys values.
Proof. done. Qed.

(** The loop started at [idx]: it ends normally when every key has a
    value and with [IndexError] otherwise; either way the values that have
    a key are revised when it stops. *)
Lemma revise_values_run (table : Table) (keys : list string) :
  forall (idx : nat) (values : list pyval),
  Forall (declared table) keys ->
  idx <= length values ->
  revise_values table idx keys values
  = (if decide (idx + length keys <= length values)
     then Ok tt else Raise IndexError,
     take idx values ++ revise_all table keys (drop idx values)).
Proof.
  induction keys as [|key keys IH]; intros idx values Hkeys Hidx.
  - cbn [revise_values length]. rewrite revise_all_nil_keys, take_drop.
    by rewrite decide_True by lia.
  - apply Forall_cons in Hkeys as [Hkey Hkeys].
    cbn [revise_values length]. unfold bind at 1, get.
    destruct (values !! idx) as [v|] eqn:Hv.
    + pose proof (lookup_lt_Some _ _ _ Hv) as Hlt.
      unfold bind at 1, lift. rewrite (revise_data_declared _ _ _ Hkey).
      unfold bind at 1, put.
      rewrite IH by (rewrite ?length_insert; done || lia).
      rewrite length_insert.
      rewrite (take_S_r _ _ (revised table key v))
        by (by apply list_lookup_insert_eq).
      rewrite take_insert_ge by lia. rewrite drop_insert_lt by lia.
      rewrite (drop_S _ _ _ Hv), revise_all_cons, <- app_assoc.
      f_equal. repeat case_decide; done || lia.
    + apply lookup_ge_None in Hv.
      rewrite decide_False by lia.
      rewrite take_ge, drop_ge, revise_all_nil_values, app_nil_r by lia.
      done.
Qed.

Lemma length_revise_all (table : Table) (keys : list string)
    (values : list pyval) :
  length (revise_all table keys values) = length values.
Proof.
  unfold revise_all. rewrite length_app, length_zip_with, length_drop. lia.
Qed.

Lemma lookup_revise_all_key (table : Table) (keys : list string)
    (values : list pyval) (i : nat) (key : string) (v : pyval) :
  keys !! i = Some key -> values !! i = Some v ->
  revise_all table keys values !! i = Some (revised table key v).
Proof.
  intros Hk Hv. unfold revise_all. apply lookup_app_l_Some.
  apply lookup_zip_with_Some. by exists key, v.
Qed.

Lemma lookup_revise_all_rest (table : Table) (keys : list string)
    (values : list pyval) (i : nat) :
  length keys <= i -> revise_all table keys values !! i = values !! i.
Proof.
  intros Hi. unfold revise_all.
  destruct (decide (length keys <= length values)) as [Hle|Hgt].
  - assert (Hlen : length (zip_with (revised table) keys values)
                   = length keys) by (rewrite length_zip_with; lia).
    rewrite lookup_app_r by lia. rewrite Hlen, lookup_drop. f_equal. lia.
  - rewrite drop_ge, app_nil_r by lia.
    rewrite (lookup_ge_None_2 values) by lia.
    apply lookup_ge_None_2. rewrite length_zip_with. lia.
Qed.

(** ** Joining the values *)

Lemma str_items_spec (values : list pyval) :
  (Forall (fun v => is_str v) values /\
   str_items values = Ok (map py_str values)) \/
  (Exists (fun v => is_str v = false) values /\
   str_items values = Raise TypeError).
Proof.
  induction values as [|v values IH]; [by left |].
  destruct v as [s| | |]; cbn [str_items];
    try (right; split; [by apply Exists_cons_hd | done]).
  destruct IH as [[Hall ->]|[Hex ->]].
  - left. split; [by constructor | done].
  - right. split; [by apply Exists_cons_tl | done].
Qed.

Lemma join_values_spec (sep : string) (values : list pyval) :
  (Forall (fun v => is_str v) values /\
   join_values sep values = Ok (Py.join sep (map py_str values))) \/
  (Exists (fun v => is_str v = false) values /\
   join_values sep values = Raise TypeError).
Proof.
  unfold join_values.
  destruct (str_items_spec values) as [[Hall ->]|[Hex ->]]; [left | right];
    done.
Qed.

(** ** insert *)

Section InsertProperties.
Context {Store : Type} `{Sqlite Store}.

(** The three ways a call of [insert] on a known table with declared keys
    can go: a key without a value, a value that is not a [str] when the
    values are joined, or a statement handed to the store. *)
Lemma insert_run (self self' : Database Store) (tname : string)
    (table : Table) (keys : list string) (values vs' : list pyval)
    (r : outcome unit) :
  tables self !! tname = Some table ->
  Forall (declared table) keys ->
  insert tname keys (self, values) = (r, (self', vs')) ->
  vs' = revise_all table keys values /\
  tables self' = tables self /\
  ((length values < length keys /\ r = Raise IndexError /\
    executed self' = executed self) \/
   (length keys <= length values /\
    Exists (fun v => is_str v = false) vs' /\ r = Raise TypeError /\
    executed self' = executed self) \/
   (length keys <= length values /\
    Forall (fun v => is_str v) vs' /\
    executed self' = executed self ++ [insert_sql tname keys vs'] /\
    r = verdict (sql_execute (insert_sql tname keys vs') (db_file self)))).
Proof.
  intros Htable Hkeys. unfold insert.
  unfold bind at 1, on_fst at 1, connect. cbn [fst snd].
  unfold bind at 1, on_fst at 1, get_table. cbn [fst snd tables].
  rewrite Htable.
  unfold bind at 1, on_snd at 1. cbn [fst snd].
  rewrite revise_values_run by (done || lia).
  rewrite Nat.add_0_l, take_0, drop_0, app_nil_l.
  case_decide as Hlen.
  - unfold bind at 1, on_snd at 1, get. cbn [fst snd].
    unfold bind at 1, lift.
    destruct (join_values_spec "," (revise_all table keys values))
      as [[Hall ->]|[Hex ->]].
    + unfold bind, on_fst, execute, commit, close. cbn.
      destruct (sql_execute _ (db_file self)) as [contents rows|msg] eqn:Hx;
        cbn; intros [= <- <- <-]; cbn;
        (split; [done |]); (split; [done |]); right; right;
        unfold insert_sql; rewrite Hx; done.
    + intros [= <- <- <-]. cbn. split; [done |]. split; [done |].
      right. left. done.
  - intros [= <- <- <-]. cbn. split; [done |]. split; [done |].
    left. split; [lia | done].
Qed.

Lemma revised_found (table : Table) (key : string) (v : pyval) (f : Field) :
  fields table !! key = Some f ->
  revised table key v
  = if is_textual (Py.lower (dtype f)) then quoted v else v.
Proof.
  intros Hf. unfold revised. by rewrite (revise_data_found _ _ _ _ Hf).
Qed.

(** C3 (as amended).  [insert] compares no lengths.  With more keys than
    values, reading [values[idx]] for the first key without a value raises
    IndexError in this layer, before any statement is executed.  With at
    most as many keys as values no IndexError is raised, and once the
    revised values are all [str] the statement is executed with every
    value, surplus ones included, so that a mismatch is left to the
    store. *)
Theorem insert_arity (self self' : Database Store) (tname : string)
    (table : Table) (keys : list string) (values vs' : list pyval)
    (r : outcome unit) :
  tables self !! tname = Some table ->
  Forall (declared table) keys ->
  insert tname keys (self, values) = (r, (self', vs')) ->
  (length values < length keys ->
   r = Raise IndexError /\ executed self' = executed self) /\
  (length keys <= length values ->
   r <> Raise IndexError /\
   (Forall (fun v => is_str v) vs' ->
    executed self' = executed self ++ [insert_sql tname keys vs'] /\
    r = verdict (sql_execute (insert_sql tname keys vs') (db_file self)))).
Proof.
  intros Htable Hkeys Hrun.
  destruct (insert_run _ _ _ _ _ _ _ _ Htable Hkeys Hrun)
    as (_ & _ & [(Hlen & -> & Hex)|[(Hlen & Hbad & -> & Hex)
                                   |(Hlen & Hall & Hex & ->)]]).
  - split; [done | lia].
  - split; [lia |]. intros _. split; [done |]. intros Hall.
    apply Exists_exists in Hbad as (v & Hv & Hns).
    rewrite Forall_forall in Hall. specialize (Hall v Hv).
    rewrite Hns in Hall. done.
  - split; [lia |]. intros _. split; [| done].
    by destruct (sql_execute _ _).
Qed.

(** C9.  On a known table and declared keys, [insert] leaves the caller's
    list with each [values[i]] replaced by
    [revise_data(keys[i], values[i])], whatever becomes of the call
    afterwards (a failure in the store included): a value for a textual
    column is now between quotes, and values past the last key are
    untouched. *)
Theorem insert_revises_in_place (self self' : Database Store)
    (tname : string) (table : Table) (keys : list string)
    (values vs' : list pyval) (r : outcome unit) :
  tables self !! tname = Some table ->
  Forall (declared table) keys ->
  insert tname keys (self, values) = (r, (self', vs')) ->
  length vs' = length values /\
  (forall (i : nat) (key : string) (v : pyval),
     keys !! i = Some key -> values !! i = Some v ->
     exists v' : pyval,
       revise_data table key v = Ok v' /\ vs' !! i = Some v') /\
  (forall (i : nat) (key : string) (f : Field) (v : pyval),
     keys !! i = Some key -> fields table !! key = Some f ->
     textual_type (dtype f) -> values !! i = Some v ->
     vs' !! i = Some (quoted v)) /\
  (forall i : nat, length keys <= i -> vs' !! i = values !! i).
Proof.
  intros Htable Hkeys Hrun.
  destruct (insert_run _ _ _ _ _ _ _ _ Htable Hkeys Hrun) as (-> & _ & _).
  split; [apply length_revise_all |]. split; [| split].
  - intros i key v Hk Hv. exists (revised table key v). split.
    + apply revise_data_declared. by eapply Forall_lookup_1.
    + by apply lookup_revise_all_key.
  - intros i key f v Hk Hf Ht Hv.
    rewrite (lookup_revise_all_key _ _ _ _ _ _ Hk Hv).
    rewrite (revised_found _ _ _ _ Hf).
    apply is_textual_spec in Ht. by rewrite Ht.
  - intros i Hi. by apply lookup_revise_all_rest.
Qed.

(** C10.  With one value per key, [insert] raises TypeError exactly when
    some value for a non-textual column is not a [str], and it does so
    before any statement is executed; values for textual columns are made
    [str] by the quoting and never cause it, in which case the statement is
    executed. *)
Theorem insert_type_error (self self' : Database Store) (tname : string)
    (table : Table) (keys : list string) (values vs' : list pyval)
    (r : outcome unit) :
  tables self !! tname = Some table ->
  Forall (declared table) keys ->
  length keys = length values ->
  insert tname keys (self, values) = (r, (self', vs')) ->
  (r = Raise TypeError <->
   exists (i : nat) (key : string) (f : Field) (v : pyval),
     keys !! i = Some key /\ fields table !! key = Some f /\
     ~ textual_type (dtype f) /\ values !! i = Some v /\ is_str v = false) /\
  (r = Raise TypeError -> executed self' = executed self) /\
  (r <> Raise TypeError ->
   executed self' = executed self ++ [insert_sql tname keys vs']).
Proof.
  intros Htable Hkeys Hlen Hrun.
  destruct (insert_run _ _ _ _ _ _ _ _ Htable Hkeys Hrun)
    as (-> & _ & [(Hlt & _)|[(_ & Hbad & -> & Hex)|(_ & Hall & Hex & ->)]]);
    [lia | |].
  - split; [| done]. split; [intros _ | done].
    apply Exists_exists in Hbad as (x & Hx & Hns).
    apply list_elem_of_lookup in Hx as [i Hi].
    pose proof (lookup_lt_Some _ _ _ Hi) as Hlt.
    rewrite length_revise_all in Hlt.
    destruct (lookup_lt_is_Some_2 keys i ltac:(lia)) as [key Hk].
    destruct (lookup_lt_is_Some_2 values i ltac:(lia)) as [v Hv].
    destruct (Forall_lookup_1 _ _ _ _ Hkeys Hk) as [f Hf].
    rewrite (lookup_revise_all_key _ _ _ _ _ _ Hk Hv) in Hi.
    rewrite (revised_found _ _ _ _ Hf) in Hi.
    exists i, key, f, v.
    destruct (is_textual (Py.lower (dtype f))) eqn:Ht.
    + injection Hi as <-. discriminate Hns.
    + injection Hi as <-. repeat split; try done.
      rewrite <- is_textual_spec. congruence.
  - assert (Hr : verdict (sql_execute
                   (insert_sql tname keys (revise_all table keys values))
                   (db_file self)) <> Raise TypeError)
      by (by destruct (sql_execute _ _)).
    split; [| done]. split; [done |].
    intros (i & key & f & v & Hk & Hf & Hnt & Hv & Hns). exfalso.
    rewrite Forall_lookup in Hall.
    specialize (Hall i _ (lookup_revise_all_key table _ _ _ _ _ Hk Hv)).
    rewrite (revised_found _ _ _ _ Hf) in Hall.
    destruct (is_textual (Py.lower (dtype f))) eqn:Ht.
    + apply Hnt. by apply is_textual_spec.
    + by rewrite Hns in Hall.
Qed.

End InsertProperties.

(** C3 on [people], one key for two values: nothing is raised in the layer
    and the statement goes to the store with both values. *)
Lemma insert_arity_surplus :
  let self := people_db ([] : list string) in
  let run := insert "people" ["name"] (self, [VStr "Alice"; VStr "30"]) in
  tables self !! "people" = Some people /\
  Forall (declared people) ["name"] /\
  fst run = Ok tt /\
  executed (fst (snd run))
  = ["INSERT INTO people (name) VALUES ('Alice',30)"].
Proof.
  intros self run.
  assert (Htable : tables self !! "people" = Some people) by reflexivity.
  assert (Hkeys : Forall (declared people) ["name"]).
  { repeat constructor. eexists. reflexivity. }
  assert (Hrun : insert "people" ["name"] (self, [VStr "Alice"; VStr "30"])
                 = (fst run, (fst (snd run), snd (snd run))))
    by reflexivity.
  destruct (insert_arity _ _ _ _ _ _ _ _ Htable Hkeys Hrun) as [_ Hle].
  destruct (Hle ltac:(cbn; lia)) as [_ Hexec].
  destruct (Hexec ltac:(repeat constructor)) as [Hlog Hr].
  split; [exact Htable |]. split; [exact Hkeys |].
  split; [exact Hr | exact Hlog].
Defined.

(** C3, the claim as stated, fails with two keys for one value: the
    mismatch surfaces as an IndexError of the layer and no statement is
    executed. *)
Lemma insert_arity_index_error :
  let self := people_db ([] : list string) in
  let run := insert "people" ["name"; "age"] (self, [VStr "Alice"]) in
  length ["name"; "age"] <> length [VStr "Alice"] /\
  fst run = Raise IndexError /\
  executed (fst (snd run)) = executed self /\
  snd (snd run) = [VStr "'Alice'"].
Proof. repeat split. discriminate. Qed.

(** C9 on [people] with a store that rejects the statement: the caller's
    "Alice" is "'Alice'" after the failed call. *)
Lemma insert_revises_in_place_locked :
  let self := people_db Locked in
  let values := [VStr "Alice"; VStr "30"] in
  let run := insert "people" ["name"; "age"] (self, values) in
  tables self !! "people" = Some people /\
  Forall (declared people) ["name"; "age"] /\
  fst run = Raise (StoreError "database is locked") /\
  snd (snd run) !! 0%nat = Some (VStr "'Alice'").
Proof.
  intros self values run.
  assert (Htable : tables self !! "people" = Some people) by reflexivity.
  assert (Hkeys : Forall (declared people) ["name"; "age"]).
  { repeat constructor; eexists; reflexivity. }
  assert (Hrun : insert "people" ["name"; "age"] (self, values)
                 = (fst run, (fst (snd run), snd (snd run))))
    by reflexivity.
  destruct (insert_revises_in_place _ _ _ _ _ _ _ _ Htable Hkeys Hrun)
    as (_ & _ & Hq & _).
  split; [exact Htable |]. split; [exact Hkeys |].
  split; [reflexivity |].
  apply (Hq 0%nat "name" (mkField ClsField "name" "TEXT" true None)
            (VStr "Alice")); try reflexivity.
  left. reflexivity.
Defined.

(** C10 on [people]: the integer 30 for the INTEGER column makes [insert]
    raise TypeError with nothing executed. *)
Lemma insert_type_error_people :
  let self := people_db ([] : list string) in
  let values := [VStr "Alice"; VInt 30] in
  let run := insert "people" ["name"; "age"] (self, values) in
  tables self !! "people" = Some people /\
  Forall (declared people) ["name"; "age"] /\
  length ["name"; "age"] = length values /\
  fst run = Raise TypeError /\
  executed (fst (snd run)) = executed self.
Proof.
  intros self values run.
  assert (Htable : tables self !! "people" = Some people) by reflexivity.
  assert (Hkeys : Forall (declared people) ["name"; "age"]).
  { repeat constructor; eexists; reflexivity. }
  assert (Hlen : length ["name"; "age"] = length values) by reflexivity.
  assert (Hrun : insert "people" ["name"; "age"] (self, values)
                 = (fst run, (fst (snd run), snd (snd run))))
    by reflexivity.
  destruct (insert_type_error _ _ _ _ _ _ _ _ Htable Hkeys Hlen Hrun)
    as (Hiff & Hquiet & _).
  assert (Hr : fst run = Raise TypeError).
  { apply Hiff.
    exists 1%nat, "age", (mkField ClsField "age" "INTEGER" true None),
      (VInt 30).
    repeat split; try reflexivity.
    rewrite <- is_textual_spec. discriminate. }
  split; [exact Htable |]. split; [exact Hkeys |]. split; [exact Hlen |].
  split; [exact Hr | exact (Hquiet Hr)].
Defined.

(** ** Range queries and range deletions *)

Section RangeProperties.
Context {Store : Type} `{Sqlite Store}.

Lemma revise_bound (table : Table) (key : string) (f : Field) (v : pyval) :
  fields table !! key = Some f ->
  exists b : pyval,
    revise_data table key (VStr (py_str v)) = Ok b /\
    py_str b = bound_text f v.
Proof.
  intros Hf. rewrite (revise_data_found _ _ _ _ Hf). eexists. split; [done |].
  unfold bound_text. by destruct (is_textual _).
Qed.

Lemma execute_close (sql : string) (self : Database Store) :
  executed (snd ((data <- execute sql;; close;; ret data) self))
  = executed self ++ [sql] /\
  fst ((data <- execute sql;; close;; ret data) self)
  = answer (sql_execute sql (db_file self)).
Proof.
  unfold bind, execute, close, ret.
  by destruct (sql_execute sql (db_file self)).
Qed.

Lemma execute_commit_close (sql : string) (self : Database Store) :
  executed (snd ((execute sql;; commit;; close) self))
  = executed self ++ [sql] /\
  fst ((execute sql;; commit;; close) self)
  = verdict (sql_execute sql (db_file self)).
Proof.
  unfold bind, execute, commit, close.
  by destruct (sql_execute sql (db_file self)).
Qed.

(** [search_by_range] on a known table and a declared key: one statement,
    with the predicate of the range. *)
Lemma search_by_range_run (self : Database Store) (tname : string)
    (table : Table) (key : string) (f : Field) (start end_ : pyval)
    (columns : option (list string)) :
  tables self !! tname = Some table ->
  fields table !! key = Some f ->
  search_by_range tname key start end_ columns self
  = (data <- execute (select_text tname columns +:+ " where " +:+
                      range_predicate key f start end_ +:+ ";");;
     close;; ret data) (snd (connect self)).
Proof.
  intros Htable Hf.
  destruct (revise_bound table key f start Hf) as (lo & Hlo & Hlo').
  destruct (revise_bound table key f end_ Hf) as (hi & Hhi & Hhi').
  unfold search_by_range.
  unfold bind at 1, connect. cbn [snd].
  unfold bind at 1, get_table. cbn [tables]. rewrite Htable.
  unfold bind at 1, lift. rewrite Hlo.
  unfold bind at 1. rewrite Hhi. rewrite Hlo', Hhi'.
  unfold range_predicate, select_text.
  destruct (is_None start), (is_None end_);
    rewrite ?string_app_assoc; reflexivity.
Qed.

(** [delete_by_time] likewise. *)
Lemma delete_by_time_run (self : Database Store) (tname : string)
    (table : Table) (key : string) (f : Field) (start end_ : pyval) :
  tables self !! tname = Some table ->
  fields table !! key = Some f ->
  delete_by_time tname key start end_ self
  = (execute ("DELETE from " +:+ tname +:+ " where " +:+
              range_predicate key f start end_);;
     commit;; close) (snd (connect self)).
Proof.
  intros Htable Hf.
  destruct (revise_bound table key f start Hf) as (lo & Hlo & Hlo').
  destruct (revise_bound table key f end_ Hf) as (hi & Hhi & Hhi').
  unfold delete_by_time.
  unfold bind at 1, connect. cbn [snd].
  unfold bind at 1, get_table. cbn [tables]. rewrite Htable.
  unfold bind at 1, lift. rewrite Hlo.
  unfold bind at 1. rewrite Hhi. rewrite Hlo', Hhi'.
  unfold range_predicate, select_text.
  destruct (is_None start), (is_None end_);
    rewrite ?string_app_assoc; reflexivity.
Qed.

(** The statement of a range query and what the call returns, for any
    store: the predicate is [key<=end] when [start] is None, [key>=start]
    when [end] is None, and [key>=start and key<=end] when both are
    given, each bound written as the column's type requires. *)
Lemma search_by_range_predicate (self : Database Store) (tname : string)
    (table : Table) (key : string) (f : Field) (start end_ : pyval)
    (columns : option (list string)) :
  tables self !! tname = Some table ->
  fields table !! key = Some f ->
  exists pred : string,
    let sql := select_text tname columns +:+ " where " +:+ pred +:+ ";" in
    executed (snd (search_by_range tname key start end_ columns self))
    = executed self ++ [sql] /\
    fst (search_by_range tname key start end_ columns self)
    = answer (sql_execute sql (db_file self)) /\
    (start = VNone -> end_ <> VNone ->
     pred = key +:+ "<=" +:+ bound_text f end_) /\
    (start <> VNone -> end_ = VNone ->
     pred = key +:+ ">=" +:+ bound_text f start) /\
    (start <> VNone -> end_ <> VNone ->
     pred = key +:+ ">=" +:+ bound_text f start +:+ " and " +:+
            key +:+ "<=" +:+ bound_text f end_).
Proof.
  intros Htable Hf. exists (range_predicate key f start end_). intros sql.
  rewrite (search_by_range_run _ _ _ _ _ _ _ _ Htable Hf).
  destruct (execute_close sql (snd (connect self))) as [Hlog Hres].
  split; [exact Hlog |]. split; [exact Hres |].
  unfold range_predicate.
  destruct start, end_; cbn [is_None]; repeat split; intros; congruence.
Qed.

(** C6.  For the same known table, declared key, [start] and [end] (the
    two not both None, and also when they are), [delete_by_time] and
    [search_by_range] put one and the same predicate after [where]: same
    comparisons, same treatment of a None bound, same quoting by type.  The
    one executes a DELETE with it, the other a SELECT. *)
Theorem delete_by_time_same_predicate (self : Database Store)
    (tname : string) (table : Table) (key : string) (f : Field)
    (start end_ : pyval) (columns : option (list string)) :
  tables self !! tname = Some table ->
  fields table !! key = Some f ->
  exists pred : string,
    executed (snd (search_by_range tname key start end_ columns self))
    = executed self ++
      [select_text tname columns +:+ " where " +:+ pred +:+ ";"] /\
    executed (snd (delete_by_time tname key start end_ self))
    = executed self ++ ["DELETE from " +:+ tname +:+ " where " +:+ pred].
Proof.
  intros Htable Hf. exists (range_predicate key f start end_).
  rewrite (search_by_range_run _ _ _ _ _ _ _ _ Htable Hf).
  rewrite (delete_by_time_run _ _ _ _ _ _ _ Htable Hf).
  split.
  - apply (execute_close _ (snd (connect self))).
  - apply (execute_commit_close _ (snd (connect self))).
Qed.

End RangeProperties.

(** ** The rows of a range query *)

Lemma alpha_word_char (c : ascii) :
  is_alpha c || is_digit c = true -> word_char c = true.
Proof.
  destruct c as [[|] [|] [|] [|] [|] [|] [|] [|]]; vm_compute; congruence.
Qed.

Lemma alnum_plain (s : string) : alnum s = true -> plain s = true.
Proof.
  induction s as [|c s IH]; [done |]. cbn [alnum plain].
  rewrite !andb_true_iff. intros [Hc Hs].
  split; [by apply alpha_word_char | by apply IH].
Qed.

Lemma identifier_plain (s : string) : identifier s = true -> plain s = true.
Proof.
  destruct s as [|c s]; [done |]. cbn [identifier plain].
  rewrite !andb_true_iff. intros [Hc Hs]. split.
  - apply alpha_word_char. by rewrite Hc.
  - by apply alnum_plain.
Qed.

Lemma alpha_not_digit (c : ascii) (d : option Decimal.uint) :
  is_alpha c = true -> uint_of_char c d = None /\ Ascii.eqb c "-" = false.
Proof.
  destruct d; destruct c as [[|] [|] [|] [|] [|] [|] [|] [|]]; vm_compute;
    intros; split; congruence.
Qed.

Lemma identifier_classify (s : string) :
  identifier s = true -> Sql.classify s = Sql.TWord s.
Proof.
  destruct s as [|c s]; [done |]. cbn [identifier].
  rewrite andb_true_iff. intros [Hc _].
  unfold Sql.classify, NilZero.int_of_string.
  destruct (alpha_not_digit c (NilEmpty.uint_of_string s) Hc) as [Hd ->].
  unfold NilZero.uint_of_string. cbn [NilEmpty.uint_of_string]. by rewrite Hd.
Qed.

Lemma flush_identifier (s : string) :
  identifier s = true -> Sql.flush s = [Sql.TWord s].
Proof.
  intros Hs. rewrite <- (identifier_classify s Hs). by destruct s.
Qed.

Lemma uint_plain (d : Decimal.uint) : plain (NilEmpty.string_of_uint d) = true.
Proof.
  induction d; cbn [NilEmpty.string_of_uint plain]; try done; by rewrite IHd.
Qed.

Lemma int_plain (n : Z) : plain (py_str (VInt n)) = true.
Proof.
  unfold py_str, NilZero.string_of_int, NilZero.string_of_uint.
  destruct (Z.to_int n) as [d|d].
  - destruct d; try done; apply (uint_plain (_ d)).
  - change (plain (NilZero.string_of_uint d) = true).
    unfold NilZero.string_of_uint.
    destruct d; try done; apply (uint_plain (_ d)).
Qed.

Lemma int_classify (n : Z) : Sql.classify (py_str (VInt n)) = Sql.TInt n.
Proof.
  unfold Sql.classify, py_str.
  rewrite NilZero.isi.
  - by rewrite DecimalZ.of_to.
  - destruct n; cbn; try discriminate.
    intros [= Hp]. by apply Unsigned.to_uint_nonnil in Hp.
  - destruct n; cbn; try discriminate.
    intros [= Hp]. by apply Unsigned.to_uint_nonnil in Hp.
Qed.

Lemma flush_int (n : Z) : Sql.flush (py_str (VInt n)) = [Sql.TInt n].
Proof.
  rewrite <- int_classify. unfold Sql.flush.
  destruct (py_str (VInt n)) eqn:E; [| done].
  pose proof (int_classify n) as Hc. rewrite E in Hc. discriminate Hc.
Qed.

Lemma tokens_from_plain (s : string) : forall w rest : string,
  plain s = true ->
  Sql.tokens_from w (s +:+ rest) = Sql.tokens_from (w +:+ s) rest.
Proof.
  induction s as [|c s IH]; intros w rest Hs.
  - by rewrite string_app_nil_l, string_app_nil_r.
  - cbn [plain] in Hs. apply andb_true_iff in Hs as [Hc Hs].
    unfold word_char in Hc. apply andb_true_iff in Hc as [Hb Hy].
    apply negb_true_iff in Hb, Hy.
    rewrite string_app_cons. cbn [Sql.tokens_from]. rewrite Hb, Hy.
    rewrite IH by done. by rewrite string_app_assoc.
Qed.

Lemma tokens_from_char (w : string) (c : ascii) (rest : string) :
  word_char c = true ->
  Sql.tokens_from w (String c rest) = Sql.tokens_from (w +:+ String c "") rest.
Proof.
  unfold word_char. rewrite andb_true_iff, !negb_true_iff. intros [Hb Hy].
  cbn [Sql.tokens_from]. by rewrite Hb, Hy.
Qed.

Lemma tokens_from_blank (w : string) (c : ascii) (rest : string) :
  Sql.blank c = true ->
  Sql.tokens_from w (String c rest) = Sql.flush w ++ Sql.tokens_from "" rest.
Proof. intros Hb. cbn [Sql.tokens_from]. by rewrite Hb. Qed.

Lemma tokens_from_symbol (w : string) (c : ascii) (rest : string) :
  Sql.blank c = false -> Sql.symbol c = true ->
  Sql.tokens_from w (String c rest)
  = Sql.flush w ++ Sql.TSym c :: Sql.tokens_from "" rest.
Proof. intros Hb Hy. cbn [Sql.tokens_from]. by rewrite Hb, Hy. Qed.

Ltac scan :=
  repeat first
    [ rewrite tokens_from_blank by reflexivity
    | rewrite tokens_from_symbol by reflexivity
    | rewrite tokens_from_char by reflexivity
    | rewrite tokens_from_plain by (done || apply int_plain) ].

Lemma tokens_select (tname rest : string) :
  identifier tname = true ->
  Sql.tokens ("SELECT * from " +:+ tname +:+ " where " +:+ rest)
  = [Sql.TWord "SELECT"; Sql.TSym "*"; Sql.TWord "from"; Sql.TWord tname;
     Sql.TWord "where"]
    ++ Sql.tokens rest.
Proof.
  intros Ht. pose proof (identifier_plain _ Ht) as Hp.
  unfold Sql.tokens. rewrite !string_app_cons, !string_app_nil_l.
  scan. rewrite (string_app_nil_l tname), (flush_identifier _ Ht). reflexivity.
Qed.

Lemma tokens_comparison (key : string) (c : ascii) (n : Z) (rest : string) :
  identifier key = true -> Sql.blank c = false -> Sql.symbol c = true ->
  match rest with
  | "" => True
  | String d _ => Sql.blank d || Sql.symbol d = true
  end ->
  Sql.tokens_from "" (key +:+ String c (String "=" (py_str (VInt n) +:+ rest)))
  = [Sql.TWord key; Sql.TSym c; Sql.TSym "="; Sql.TInt n]
    ++ Sql.tokens_from "" rest.
Proof.
  intros Hk Hb Hy Hrest. pose proof (identifier_plain _ Hk) as Hp.
  rewrite tokens_from_plain by done. rewrite string_app_nil_l.
  rewrite tokens_from_symbol by done. rewrite (flush_identifier _ Hk).
  rewrite tokens_from_symbol by reflexivity.
  rewrite tokens_from_plain by apply int_plain. rewrite string_app_nil_l.
  cbn [app Sql.flush]. do 3 f_equal.
  destruct rest as [|d rest]; [cbn [Sql.tokens_from]; by rewrite flush_int |].
  cbn [Sql.tokens_from]. apply orb_true_iff in Hrest.
  destruct (Sql.blank d) eqn:Hd; [by rewrite flush_int |].
  destruct Hrest as [Hr|Hr]; [done |]. rewrite Hr. by rewrite flush_int.
Qed.

Lemma range_predicate_int (key : string) (f : Field) (start end_ : pyval) :
  is_textual (Py.lower (dtype f)) = false ->
  range_predicate key f start end_
  = if is_None start then key +:+ "<=" +:+ py_str end_
    else if is_None end_ then key +:+ ">=" +:+ py_str start
    else key +:+ ">=" +:+ py_str start +:+ " and " +:+
         key +:+ "<=" +:+ py_str end_.
Proof. intros Hf. unfold range_predicate, bound_text. by rewrite Hf. Qed.

Lemma parse_upper (tname key : string) (n : Z) :
  identifier tname = true -> identifier key = true ->
  Sql.parse_select
    (Sql.tokens (select_text tname None +:+ " where " +:+
                 (key +:+ "<=" +:+ py_str (VInt n)) +:+ ";"))
  = Some (Sql.mkQuery tname [Sql.mkComparison key Sql.Le n]).
Proof.
  intros Ht Hk. unfold select_text. cbn [default].
  rewrite !string_app_assoc.
  change (Py.join "," ["*"]) with "*".
  change ("SELECT " +:+ "*" +:+ " from " +:+ tname +:+ " where " +:+
          key +:+ "<=" +:+ py_str (VInt n) +:+ ";")
    with ("SELECT * from " +:+ tname +:+ " where " +:+
          key +:+ String "<" (String "=" (py_str (VInt n) +:+ ";"))).
  rewrite tokens_select by done. unfold Sql.tokens.
  rewrite tokens_comparison by done.
  reflexivity.
Qed.

Lemma parse_lower (tname key : string) (n : Z) :
  identifier tname = true -> identifier key = true ->
  Sql.parse_select
    (Sql.tokens (select_text tname None +:+ " where " +:+
                 (key +:+ ">=" +:+ py_str (VInt n)) +:+ ";"))
  = Some (Sql.mkQuery tname [Sql.mkComparison key Sql.Ge n]).
Proof.
  intros Ht Hk. unfold select_text. cbn [default].
  rewrite !string_app_assoc.
  change (Py.join "," ["*"]) with "*".
  change ("SELECT " +:+ "*" +:+ " from " +:+ tname +:+ " where " +:+
          key +:+ ">=" +:+ py_str (VInt n) +:+ ";")
    with ("SELECT * from " +:+ tname +:+ " where " +:+
          key +:+ String ">" (String "=" (py_str (VInt n) +:+ ";"))).
  rewrite tokens_select by done. unfold Sql.tokens.
  rewrite tokens_comparison by done.
  reflexivity.
Qed.

Lemma parse_both (tname key : string) (lo hi : Z) :
  identifier tname = true -> identifier key = true ->
  Sql.parse_select
    (Sql.tokens (select_text tname None +:+ " where " +:+
                 (key +:+ ">=" +:+ py_str (VInt lo) +:+ " and " +:+
                  key +:+ "<=" +:+ py_str (VInt hi)) +:+ ";"))
  = Some (Sql.mkQuery tname [Sql.mkComparison key Sql.Ge lo;
                             Sql.mkComparison key Sql.Le hi]).
Proof.
  intros Ht Hk. unfold select_text. cbn [default].
  rewrite !string_app_assoc.
  change (Py.join "," ["*"]) with "*".
  change ("SELECT " +:+ "*" +:+ " from " +:+ tname +:+ " where " +:+
          key +:+ ">=" +:+ py_str (VInt lo) +:+ " and " +:+
          key +:+ "<=" +:+ py_str (VInt hi) +:+ ";")
    with ("SELECT * from " +:+ tname +:+ " where " +:+
          key +:+ String ">" (String "=" (py_str (VInt lo) +:+
            String " " ("and " +:+
              key +:+ String "<" (String "=" (py_str (VInt hi) +:+ ";")))))).
  rewrite tokens_select by done. unfold Sql.tokens.
  rewrite tokens_comparison by done.
  rewrite !string_app_cons, string_app_nil_l.
  scan. rewrite tokens_comparison by done.
  reflexivity.
Qed.

Lemma selected_where (t key : string) (cs : list Sql.comparison)
    (p : Z -> bool) (recs : list Sql.record) :
  (forall r : Sql.record,
     forallb (fun c => Sql.holds c r) cs = key_in key p r) ->
  Sql.selected (Sql.mkQuery t cs) recs = rows_where key p recs.
Proof.
  intros Hcs. unfold Sql.selected, rows_where. cbn [Sql.q_where]. f_equal.
  apply list_filter_iff. intros r. by rewrite Hcs.
Qed.

Section RangeRows.
Context {Store : Type} `{Relational Store}.

Lemma search_by_range_answer (self : Database Store) (tname : string)
    (table : Table) (key : string) (f : Field) (start end_ : pyval)
    (q : Sql.query) (recs : list Sql.record) :
  tables self !! tname = Some table ->
  fields table !! key = Some f ->
  Sql.parse_select
    (Sql.tokens (select_text tname None +:+ " where " +:+
                 range_predicate key f start end_ +:+ ";")) = Some q ->
  stored (db_file self) (Sql.q_table q) = Some recs ->
  fst (search_by_range tname key start end_ None self)
  = Ok (Sql.selected q recs).
Proof.
  intros Htable Hf Hq Hrecs.
  rewrite (search_by_range_run _ _ _ _ _ _ _ _ Htable Hf).
  match goal with
  | |- context [bind (execute ?sql) _ ?st] =>
      destruct (execute_close sql st) as [_ ->];
      change (db_file st) with (db_file self)
  end.
  by rewrite (select_reads _ _ _ _ Hq Hrecs).
Qed.

(** C5.  On a known table and a declared key, [search_by_range] executes
    one SELECT and returns what the store answers to it; its predicate is
    [key<=end] when [start] is None, [key>=start] when [end] is None, and
    [key>=start and key<=end] when both are given.  On a key that is not
    textual, over a store that reads these statements as SQL does, the
    call with [start=None] and [end=n] returns exactly the rows whose key
    is at most [n], the call with [start=n] and [end=None] exactly those
    whose key is at least [n], and the call with both bounds exactly
    those in between. *)
Theorem search_by_range_rows (self : Database Store) (tname : string)
    (table : Table) (key : string) (f : Field) (start end_ : pyval)
    (columns : option (list string)) (recs : list Sql.record) :
  tables self !! tname = Some table ->
  fields table !! key = Some f ->
  (exists pred : string,
     let sql := select_text tname columns +:+ " where " +:+ pred +:+ ";" in
     executed (snd (search_by_range tname key start end_ columns self))
     = executed self ++ [sql] /\
     fst (search_by_range tname key start end_ columns self)
     = answer (sql_execute sql (db_file self)) /\
     (start = VNone -> end_ <> VNone ->
      pred = key +:+ "<=" +:+ bound_text f end_) /\
     (start <> VNone -> end_ = VNone ->
      pred = key +:+ ">=" +:+ bound_text f start) /\
     (start <> VNone -> end_ <> VNone ->
      pred = key +:+ ">=" +:+ bound_text f start +:+ " and " +:+
             key +:+ "<=" +:+ bound_text f end_)) /\
  (is_textual (Py.lower (dtype f)) = false ->
   identifier tname = true -> identifier key = true ->
   stored (db_file self) tname = Some recs ->
   (forall n : Z,
      fst (search_by_range tname key VNone (VInt n) None self)
      = Ok (rows_where key (fun z => (z <=? n)%Z) recs)) /\
   (forall n : Z,
      fst (search_by_range tname key (VInt n) VNone None self)
      = Ok (rows_where key (fun z => (n <=? z)%Z) recs)) /\
   (forall lo hi : Z,
      fst (search_by_range tname key (VInt lo) (VInt hi) None self)
      = Ok (rows_where key (fun z => (lo <=? z)%Z && (z <=? hi)%Z) recs))).
Proof.
  intros Htable Hf. split.
  - exact (search_by_range_predicate self tname table key f start end_
             columns Htable Hf).
  - intros Hint Ht Hk Hrecs. repeat split.
    + intros n.
      rewrite (search_by_range_answer _ _ _ _ _ _ _
                 (Sql.mkQuery tname [Sql.mkComparison key Sql.Le n]) recs
                 Htable Hf); try done.
      * f_equal. apply selected_where. intros r. unfold Sql.holds, key_in. cbn.
        destruct (Sql.column_value key r) as [[]|]; by rewrite ?andb_true_r.
      * rewrite (range_predicate_int _ _ _ _ Hint). by apply parse_upper.
    + intros n.
      rewrite (search_by_range_answer _ _ _ _ _ _ _
                 (Sql.mkQuery tname [Sql.mkComparison key Sql.Ge n]) recs
                 Htable Hf); try done.
      * f_equal. apply selected_where. intros r. unfold Sql.holds, key_in. cbn.
        destruct (Sql.column_value key r) as [[]|]; by rewrite ?andb_true_r.
      * rewrite (range_predicate_int _ _ _ _ Hint). by apply parse_lower.
    + intros lo hi.
      rewrite (search_by_range_answer _ _ _ _ _ _ _
                 (Sql.mkQuery tname [Sql.mkComparison key Sql.Ge lo;
                                     Sql.mkComparison key Sql.Le hi]) recs
                 Htable Hf); try done.
      * f_equal. apply selected_where. intros r. unfold Sql.holds, key_in. cbn.
        destruct (Sql.column_value key r) as [[]|]; by rewrite ?andb_true_r.
      * rewrite (range_predicate_int _ _ _ _ Hint). by apply parse_both.
Qed.

End RangeRows.

(** C5 on the INTEGER column of [people], over five stored rows:
    [start=None, end=10] asks for [age<=10] and returns the rows of Bob,
    Carol and Eve; [start=5, end=None] asks for [age>=5] and returns those
    of Alice, Bob and Carol.  The row without an age is in neither. *)
Lemma search_by_range_rows_people :
  let self := people_db ({["people" := people_rows]}
                         : gmap string (list Sql.record)) in
  let age := mkField ClsField "age" "INTEGER" true None in
  tables self !! "people" = Some people /\
  fields people !! "age" = Some age /\
  is_textual (Py.lower (dtype age)) = false /\
  identifier "people" = true /\ identifier "age" = true /\
  stored (db_file self) "people" = Some people_rows /\
  fst (search_by_range "people" "age" VNone (VInt 10) None self)
  = Ok [[VInt 2; VStr "Bob"; VInt 7]; [VInt 3; VStr "Carol"; VInt 10];
        [VInt 5; VStr "Eve"; VInt 4]] /\
  fst (search_by_range "people" "age" (VInt 5) VNone None self)
  = Ok [[VInt 1; VStr "Alice"; VInt 30]; [VInt 2; VStr "Bob"; VInt 7];
        [VInt 3; VStr "Carol"; VInt 10]] /\
  executed (snd (search_by_range "people" "age" VNone (VInt 10) None self))
  = ["SELECT * from people where age<=10;"] /\
  executed (snd (search_by_range "people" "age" (VInt 5) VNone None self))
  = ["SELECT * from people where age>=5;"].
Proof.
  intros self age.
  assert (Htable : tables self !! "people" = Some people) by reflexivity.
  assert (Hf : fields people !! "age" = Some age) by reflexivity.
  assert (Hrecs : stored (db_file self) "people" = Some people_rows)
    by reflexivity.
  destruct (search_by_range_rows self "people" people "age" age
              VNone (VInt 10) None people_rows Htable Hf)
    as (_ & Hrows).
  destruct (Hrows eq_refl eq_refl eq_refl Hrecs) as (Hle & Hge & _).
  split; [exact Htable |]. split; [exact Hf |].
  split; [reflexivity |]. split; [reflexivity |]. split; [reflexivity |].
  split; [exact Hrecs |].
  split; [exact (Hle 10%Z) |]. split; [exact (Hge 5%Z) |].
  split; reflexivity.
Defined.

(** C6 on the TEXT column of [people]: the DELETE and the SELECT carry the
    same predicate. *)
Lemma delete_by_time_people :
  let self := people_db ([] : list string) in
  let name := mkField ClsField "name" "TEXT" true None in
  tables self !! "people" = Some people /\
  fields people !! "name" = Some name /\
  exists pred : string,
    executed (snd (search_by_range "people" "name" (VStr "A") (VStr "B")
                     (Some ["name"; "age"]) self))
    = [select_text "people" (Some ["name"; "age"]) +:+
       " where " +:+ pred +:+ ";"] /\
    executed (snd (delete_by_time "people" "name" (VStr "A") (VStr "B") self))
    = ["DELETE from " +:+ "people" +:+ " where " +:+ pred].
Proof.
  intros self name.
  assert (Htable : tables self !! "people" = Some people) by reflexivity.
  assert (Hf : fields people !! "name" = Some name) by reflexivity.
  split; [exact Htable |]. split; [exact Hf |].
  exact (delete_by_time_same_predicate self "people" people "name" name
           (VStr "A") (VStr "B") (Some ["name"; "age"]) Htable Hf).
Defined.

(** The statements of the last example, in full. *)
Example range_statements_people :
  let self := people_db ([] : list string) in
  executed (snd (search_by_range "people" "name" (VStr "A") (VStr "B")
                   (Some ["name"; "age"]) self))
  = ["SELECT name,age from people where name>='A' and name<='B';"] /\
  executed (snd (delete_by_time "people" "name" (VStr "A") (VStr "B") self))
  = ["DELETE from people where name>='A' and name<='B'"].
Proof. split; reflexivity. Qed.

(** [create_table] against a store that accepts and one that rejects. *)
Example create_table_accepted :
  let self := people_db ([] : list string) in
  let pets := [mkField ClsField "name" "TEXT" false None] in
  let run := create_table "pets" id_as_primary pets self in
  fst run = Ok tt /\
  executed (snd run)
  = ["CREATE TABLE pets(id INTEGER PRIMARY KEY NOT NULL, name TEXT NOT NULL);"]
  /\ tables (snd run) !! "pets" = Some (Table_init "pets" id_as_primary pets)
  /\ config_file (snd run) = Some (tables (snd run)).
Proof. repeat split. Qed.

Example create_table_rejected :
  let self := people_db Locked in
  let pets := [mkField ClsField "name" "TEXT" false None] in
  let run := create_table "pets" id_as_primary pets self in
  fst run = Raise (StoreError "database is locked") /\
  tables (snd run) = tables self /\
  tables (snd run) !! "pets" = None /\
  conn_open (snd run) = true.
Proof. repeat split. Qed.

(** * Further properties of the module *)

(** ** Tokens of a field *)

(** X2.  The tokens of any field are its name and type, then "PRIMARY KEY"
    for a [PrimaryKey], then "NOT NULL" for a non-nullable field, then the
    extra modifiers: the insertion at index 2 always lands right after the
    type. *)
Theorem to_list_tokens (f : Field) :
  to_list f
  = [name f; dtype f]
    ++ (match cls f with ClsPrimaryKey => ["PRIMARY KEY"] | ClsField => [] end)
    ++ (if null f then [] else ["NOT NULL"])
    ++ default [] (others f).
Proof.
  destruct f as [c n d nl o].
  unfold to_list, Field_to_list, Py.list_insert_at.
  destruct c, nl, o as [l|]; cbn; by rewrite ?app_nil_r.
Qed.

(** ** Fields of a table *)

(** After the loop of [Table.__init__] a name maps to the last field of the
    list that bears it, or to what it mapped to before. *)
Lemma fields_loop_lookup (n : string) (l : list Field) :
  forall d : gmap string Field,
  foldl (fun d field => <[name field := field]> d) d l !! n
  = match last (named n l) with
    | Some f => Some f
    | None => d !! n
    end.
Proof.
  induction l as [|f l IH]; intros d; [done |].
  cbn [foldl]. rewrite IH. unfold named. rewrite filter_cons.
  destruct (decide (name f = n)) as [Hn|Hn].
  - rewrite last_cons. destruct (last (filter _ l)); [done |].
    rewrite <- Hn. apply lookup_insert_eq.
  - destruct (last (filter _ l)); [done |]. by apply lookup_insert_ne.
Qed.

(** X1.  [get_field] on a constructed table returns the last field of
    [[primary] + fields] that bears the requested name, and raises
    KeyError when no field bears it. *)
Theorem get_field_Table_init (tname : string) (pk : Field)
    (l : list Field) (n : string) :
  get_field (Table_init tname pk l) n
  = match last (named n (pk :: l)) with
    | Some f => Ok f
    | None => Raise (KeyError n)
    end.
Proof.
  unfold get_field, Table_init. cbn [fields].
  rewrite fields_loop_lookup, lookup_empty.
  by destruct (last (named n (pk :: l))).
Qed.

(** ** How a call ends *)

Lemma revise_data_error (table : Table) (key : string) (v : pyval)
    (e : pyerr) :
  revise_data table key v = Raise e ->
  e = KeyError key /\ fields table !! key = None.
Proof.
  unfold revise_data, get_field.
  destruct (fields table !! key); [by destruct (is_textual _) |].
  by intros [= <-].
Qed.

Lemma revise_values_error (table : Table) (keys : list string) :
  forall (idx : nat) (values vs' : list pyval) (e : pyerr),
  revise_values table idx keys values = (Raise e, vs') -> layer_error e.
Proof.
  induction keys as [|key keys IH]; intros idx values vs' e; [done |].
  cbn [revise_values]. unfold bind at 1, get.
  destruct (values !! idx) as [v|]; [| by intros [= <- _]].
  unfold bind at 1, lift.
  destruct (revise_data table key v) as [v'|e'] eqn:Hv.
  - unfold bind at 1, put. apply IH.
  - apply revise_data_error in Hv as [-> _]. by intros [= <- _].
Qed.

Lemma join_values_error (sep : string) (values : list pyval) (e : pyerr) :
  join_values sep values = Raise e -> layer_error e.
Proof.
  destruct (join_values_spec sep values) as [[_ ->]|[_ ->]]; [done |].
  by intros [= <-].
Qed.

Lemma update_items_error (table : Table) (keys : list string) :
  forall (idx : nat) (values : list pyval) (e : pyerr),
  update_items table idx keys values = Raise e -> layer_error e.
Proof.
  induction keys as [|key keys IH]; intros idx values e; [done |].
  cbn [update_items].
  destruct (values !! idx) as [v|]; [| by intros [= <-]].
  destruct (revise_data table key v) as [v'|e'] eqn:Hv.
  - destruct (update_items table (S idx) keys values) eqn:Hrest; [done |].
    intros [= <-]. by eapply IH.
  - apply revise_data_error in Hv as [-> _]. by intros [= <-].
Qed.

Section Calls.
Context {Store : Type} `{Sqlite Store}.

Local Ltac run_call :=
  unfold create_table, insert, select, search, search_by_range, update,
    delete, delete_by_time, bind, connect, get_table, lift, execute, commit,
    close, set_table, ret, on_fst, on_snd, get;
  cbn.

Local Ltac layer :=
  match goal with
  | H : revise_data _ _ _ = Raise _ |- _ =>
      apply revise_data_error in H as [-> _]; exact I
  | H : revise_values _ _ _ _ = (Raise _, _) |- _ =>
      exact (revise_values_error _ _ _ _ _ _ H)
  | H : join_values _ _ = Raise _ |- _ =>
      exact (join_values_error _ _ _ H)
  | H : update_items _ _ _ _ = Raise _ |- _ =>
      exact (update_items_error _ _ _ _ _ H)
  | |- _ => exact I
  end.

Local Ltac finish :=
  first
    [ eapply answered; [eassumption | by (left + right)]
    | eapply rejected; eassumption
    | eapply refused; layer ].

(** Every call ends in one of the three ways. *)
Lemma perform_ending (c : call) (self : Database Store) :
  ending self (fst (perform c self)) (snd (perform c self)).
Proof.
  destruct c; cbn [perform]; run_call; repeat case_match; simplify_eq;
    cbn; finish.
Qed.

(** Only an accepted [create_table] changes the map of tables. *)
Lemma perform_tables (c : call) (self : Database Store) :
  tables (snd (perform c self))
  = match c, fst (perform c self) with
    | CreateTable tname pk l, None =>
        <[tname := Table_init tname pk l]> (tables self)
    | _, _ => tables self
    end.
Proof.
  destruct c; cbn [perform]; run_call; repeat case_match; simplify_eq;
    done.
Qed.

Lemma perform_saved (c : call) (self : Database Store) :
  config_file self = Some (tables self) ->
  config_file (snd (perform c self)) = Some (tables (snd (perform c self))).
Proof.
  intros Hsaved. by destruct (perform_ending c self).
Qed.

Lemma Database_init_saved (path config_path : string) (file : Store)
    (config : option (gmap string Table)) :
  config_file (Database_init path config_path file config)
  = Some (tables (Database_init path config_path file config)).
Proof. done. Qed.

Lemma session_saved (calls : list call) :
  forall self : Database Store,
  config_file self = Some (tables self) ->
  config_file (session calls self) = Some (tables (session calls self)).
Proof.
  induction calls as [|c calls IH]; intros self Hsaved; [done |].
  apply IH. by apply perform_saved.
Qed.

(** X3.  A call executes at most one statement.  When it returns, the
    store has accepted the one statement executed, the database file is
    what the store made of it (committed or not), the connection is closed
    and the side file holds the map of tables.  When the store raises, the
    statement was executed, and when the layer raises (KeyError,
    IndexError, TypeError) nothing was; in both cases the connection is
    left open and the map of tables, the database file and the side file
    are as before. *)
Theorem call_outcome (c : call) (self : Database Store) :
  match fst (perform c self) with
  | None =>
      conn_open (snd (perform c self)) = false /\
      config_file (snd (perform c self))
      = Some (tables (snd (perform c self))) /\
      exists (sql : string) (contents : Store) (rows : list row),
        sql_execute sql (db_file self) = Done contents rows /\
        executed (snd (perform c self)) = executed self ++ [sql] /\
        (db_file (snd (perform c self)) = contents \/
         db_file (snd (perform c self)) = sql_commit contents)
  | Some e =>
      conn_open (snd (perform c self)) = true /\
      config_file (snd (perform c self)) = config_file self /\
      tables (snd (perform c self)) = tables self /\
      db_file (snd (perform c self)) = db_file self /\
      match e with
      | StoreError msg =>
          exists sql : string,
            sql_execute sql (db_file self) = Failed msg /\
            executed (snd (perform c self)) = executed self ++ [sql]
      | _ => executed (snd (perform c self)) = executed self
      end
  end.
Proof.
  destruct (perform_ending c self)
    as [e He|sql msg Hx|sql contents file rows tables' Hx Hfile]; cbn.
  - repeat split; by destruct e.
  - repeat split; by exists sql.
  - split; [done |]. split; [done |]. by exists sql, contents, rows.
Qed.

(** X4.  After any sequence of calls on a freshly constructed [Database],
    failed calls included, the side file holds the map of tables, so that
    constructing a [Database] again on the same files restores the same
    map. *)
Theorem reopen_restores_tables (path config_path : string) (file : Store)
    (config : option (gmap string Table)) (calls : list call) :
  let final := session calls (Database_init path config_path file config) in
  config_file final = Some (tables final) /\
  tables (Database_init path config_path (db_file final) (config_file final))
  = tables final.
Proof.
  intros final.
  assert (Hsaved : config_file final = Some (tables final)).
  { apply session_saved, Database_init_saved. }
  split; [done |]. by rewrite Hsaved.
Qed.

(** Without a side file the constructor starts from an empty map,
    creates the side file with that map, executes nothing and leaves the
    connection closed; with a side file it starts from the map in it. *)
Lemma Database_init_spec (path config_path : string) (file : Store)
    (config : option (gmap string Table)) :
  let self := Database_init path config_path file config in
  tables self = default ∅ config /\
  config_file self = Some (default ∅ config) /\
  (config = None -> tables self = ∅) /\
  executed self = [] /\ conn_open self = false /\ db_file self = file.
Proof. destruct config; repeat split; done. Qed.

(** X5.  Whatever the calls, a name once in the map of tables stays in
    it: no method drops a table. *)
Theorem table_never_dropped (calls : list call) (self : Database Store)
    (n : string) :
  is_Some (tables self !! n) ->
  is_Some (tables (session calls self) !! n).
Proof.
  revert self. induction calls as [|c calls IH]; intros self Hn; [done |].
  apply IH. rewrite perform_tables.
  destruct c; try done. destruct (fst _); [done |].
  rewrite lookup_insert. by case_decide.
Qed.

(** X6.  The entry of a table changes only through [create_table] under
    that very name: any sequence of other calls leaves it as it was. *)
Theorem only_create_table_alters (calls : list call)
    (self : Database Store) (n : string) :
  Forall (fun c => creates c <> Some n) calls ->
  tables (session calls self) !! n = tables self !! n.
Proof.
  revert self. induction calls as [|c calls IH]; intros self Hcalls;
    [done |].
  apply Forall_cons in Hcalls as [Hc Hcalls].
  cbn [session foldl]. fold (session calls (snd (perform c self))).
  rewrite IH by done. rewrite perform_tables.
  destruct c; try done. destruct (fst _); [done |].
  apply lookup_insert_ne. cbn in Hc. congruence.
Qed.

(** ** Missing tables and columns *)

Lemma revise_data_missing (table : Table) (key : string) (v : pyval) :
  fields table !! key = None ->
  revise_data table key v = Raise (KeyError key).
Proof. intros Hk. unfold revise_data, get_field. by rewrite Hk. Qed.

(** X7.  For a table name that is not in the map of tables, [select] still
    executes its statement and returns the store's answer (it never reads
    the map), while [insert], [search], [search_by_range], [update],
    [delete] and [delete_by_time] raise KeyError on the name before
    executing anything, leaving the connection open and, for [insert], the
    caller's list untouched. *)
Theorem unknown_table (self : Database Store) (tname : string) :
  tables self !! tname = None ->
  let opened := snd (connect self) in
  (forall columns : option (list string),
     executed (snd (select tname columns self))
     = executed self ++ [select_text tname columns] /\
     fst (select tname columns self)
     = answer (sql_execute (select_text tname columns) (db_file self))) /\
  (forall (keys : list string) (values : list pyval),
     insert tname keys (self, values)
     = (Raise (KeyError tname), (opened, values))) /\
  (forall (key : string) (value : pyval) (columns : option (list string)),
     search tname key value columns self
     = (Raise (KeyError tname), opened)) /\
  (forall (key : string) (start end_ : pyval)
          (columns : option (list string)),
     search_by_range tname key start end_ columns self
     = (Raise (KeyError tname), opened)) /\
  (forall (keys : list string) (values : list pyval) (key : option string)
          (value : pyval),
     update tname keys values key value self
     = (Raise (KeyError tname), opened)) /\
  (forall (key : string) (value : pyval),
     delete tname key value self = (Raise (KeyError tname), opened)) /\
  (forall (key : string) (start end_ : pyval),
     delete_by_time tname key start end_ self
     = (Raise (KeyError tname), opened)).
Proof.
  intros Hnone opened. split.
  - intros columns.
    apply (execute_close (select_text tname columns) (snd (connect self))).
  - repeat split; intros; run_call; by rewrite Hnone.
Qed.

(** X8.  On a known table, a key that is not one of its columns makes
    [search], [search_by_range], [delete] and [delete_by_time] raise
    KeyError on the key before executing anything; the connection is left
    open. *)
Theorem undeclared_key (self : Database Store) (tname : string)
    (table : Table) (key : string) :
  tables self !! tname = Some table ->
  fields table !! key = None ->
  let opened := snd (connect self) in
  (forall (value : pyval) (columns : option (list string)),
     search tname key value columns self
     = (Raise (KeyError key), opened)) /\
  (forall (start end_ : pyval) (columns : option (list string)),
     search_by_range tname key start end_ columns self
     = (Raise (KeyError key), opened)) /\
  (forall value : pyval,
     delete tname key value self = (Raise (KeyError key), opened)) /\
  (forall start end_ : pyval,
     delete_by_time tname key start end_ self
     = (Raise (KeyError key), opened)).
Proof.
  intros Htable Hkey opened.
  repeat split; intros; run_call; rewrite Htable; cbn;
    by rewrite !(revise_data_missing _ _ _ Hkey).
Qed.

(** ** search and delete *)

(** X9.  On a known table and a declared key, [search] executes
    [SELECT ... where key=value] and returns what the store answers, and
    [delete] executes [DELETE ... where key=value] with the same
    predicate; the value is written as its [str()], between quotes for a
    textual column, so that a value of any type is accepted. *)
Theorem search_delete_predicate (self : Database Store) (tname : string)
    (table : Table) (key : string) (f : Field) (value : pyval)
    (columns : option (list string)) :
  tables self !! tname = Some table ->
  fields table !! key = Some f ->
  let pred := key +:+ "=" +:+ bound_text f value in
  let query := select_text tname columns +:+ " where " +:+ pred in
  let removal := "DELETE from " +:+ tname +:+ " where " +:+ pred in
  executed (snd (search tname key value columns self))
  = executed self ++ [query] /\
  fst (search tname key value columns self)
  = answer (sql_execute query (db_file self)) /\
  executed (snd (delete tname key value self))
  = executed self ++ [removal] /\
  fst (delete tname key value self)
  = verdict (sql_execute removal (db_file self)).
Proof.
  intros Htable Hf pred query removal.
  assert (Hv : py_str (if is_textual (Py.lower (dtype f))
                       then quoted value else value)
               = bound_text f value).
  { unfold bound_text. by destruct (is_textual _). }
  assert (Hs : search tname key value columns self
               = (data <- execute query;; close;; ret data)
                   (snd (connect self))).
  { unfold search. unfold bind at 1, connect. cbn [snd].
    unfold bind at 1, get_table. cbn [tables]. rewrite Htable.
    unfold bind at 1, lift. rewrite (revise_data_found _ _ _ _ Hf), Hv.
    unfold query, pred, select_text.
    rewrite !string_app_assoc. reflexivity. }
  assert (Hd : delete tname key value self
               = (execute removal;; commit;; close) (snd (connect self))).
  { unfold delete. unfold bind at 1, connect. cbn [snd].
    unfold bind at 1, get_table. cbn [tables]. rewrite Htable.
    unfold bind at 1, lift. rewrite (revise_data_found _ _ _ _ Hf), Hv.
    reflexivity. }
  rewrite Hs, Hd.
  destruct (execute_close query (snd (connect self))) as [? ?].
  destruct (execute_commit_close removal (snd (connect self))) as [? ?].
  done.
Qed.

End Calls.

(** ** update *)

(** When every key is declared and has a value, the comprehension gives
    one [field=value] item per key. *)
Lemma update_items_run (table : Table) (keys : list string) :
  forall (idx : nat) (values : list pyval),
  Forall (declared table) keys ->
  idx + length keys <= length values ->
  update_items table idx keys values
  = Ok (zip_with
          (fun field v => field +:+ "=" +:+ py_str (revised table field v))
          keys (drop idx values)).
Proof.
  induction keys as [|key keys IH]; intros idx values Hkeys Hlen; [done |].
  apply Forall_cons in Hkeys as [Hkey Hkeys]. cbn [length] in Hlen.
  destruct (lookup_lt_is_Some_2 values idx ltac:(lia)) as [v Hv].
  cbn [update_items]. rewrite Hv, (revise_data_declared _ _ _ Hkey).
  rewrite IH by (done || lia). by rewrite (drop_S _ _ _ Hv).
Qed.

(** With declared keys, a key without a value ends the comprehension with
    IndexError. *)
Lemma update_items_short (table : Table) (keys : list string) :
  forall (idx : nat) (values : list pyval),
  Forall (declared table) keys ->
  idx <= length values ->
  length values < idx + length keys ->
  update_items table idx keys values = Raise IndexError.
Proof.
  induction keys as [|key keys IH]; intros idx values Hkeys Hidx Hlen.
  - cbn [length] in Hlen. lia.
  - apply Forall_cons in Hkeys as [Hkey Hkeys]. cbn [length] in Hlen.
    cbn [update_items].
    destruct (values !! idx) as [v|] eqn:Hv; [| done].
    apply lookup_lt_Some in Hv.
    rewrite (revise_data_declared _ _ _ Hkey).
    by rewrite IH by (done || lia).
Qed.

Section Updates.
Context {Store : Type} `{Sqlite Store}.

(** X10.  On a known table, with declared keys that all have a value (and
    a declared search key, if one is given), [update] executes
    [UPDATE t set k1=v1,...,kn=vn where key=value;], or the same without
    the [where] clause when no search key is given, so that every row is
    updated.  Each value is written as its [str()], between quotes for a
    textual column; values past the last key do not appear. *)
Theorem update_statement (self : Database Store) (tname : string)
    (table : Table) (keys : list string) (values : list pyval)
    (key : option string) (value : pyval) :
  tables self !! tname = Some table ->
  Forall (declared table) keys ->
  length keys <= length values ->
  (forall k : string, key = Some k -> declared table k) ->
  let sql := "UPDATE " +:+ tname +:+ " set " +:+
             set_text table keys values +:+ " " +:+
             where_text table key value +:+ ";" in
  executed (snd (update tname keys values key value self))
  = executed self ++ [sql] /\
  fst (update tname keys values key value self)
  = verdict (sql_execute sql (db_file self)).
Proof.
  intros Htable Hkeys Hlen Hkey sql.
  assert (Hrun : update tname keys values key value self
                 = (execute sql;; commit;; close) (snd (connect self))).
  { unfold update. unfold bind at 1, connect. cbn [snd].
    unfold bind at 1, get_table. cbn [tables]. rewrite Htable.
    unfold bind at 1, lift.
    rewrite update_items_run by (done || cbn; lia). rewrite drop_0.
    fold (set_text table keys values).
    unfold bind at 1. destruct key as [k|].
    - unfold bind at 1, lift.
      rewrite (revise_data_declared _ _ _ (Hkey k eq_refl)). done.
    - done. }
  rewrite Hrun.
  by destruct (execute_commit_close sql (snd (connect self))).
Qed.

(** X11.  On a known table with declared keys, [update] with more keys
    than values raises IndexError before executing anything, and leaves
    the connection open. *)
Theorem update_arity (self : Database Store) (tname : string)
    (table : Table) (keys : list string) (values : list pyval)
    (key : option string) (value : pyval) :
  tables self !! tname = Some table ->
  Forall (declared table) keys ->
  length values < length keys ->
  update tname keys values key value self
  = (Raise IndexError, snd (connect self)).
Proof.
  intros Htable Hkeys Hlen.
  unfold update. unfold bind at 1, connect. cbn [snd].
  unfold bind at 1, get_table. cbn [tables]. rewrite Htable.
  unfold bind at 1, lift.
  by rewrite update_items_short by (done || cbn; lia).
Qed.

(** X12.  [insert] quotes in the caller's list, so a list passed to
    [insert] twice has its values for textual columns quoted twice; the
    values for the other columns are as the caller gave them. *)
Theorem insert_twice_quotes_twice (self self1 self2 : Database Store)
    (tname : string) (table : Table) (keys : list string)
    (values vs1 vs2 : list pyval) (r1 r2 : outcome unit) :
  tables self !! tname = Some table ->
  Forall (declared table) keys ->
  insert tname keys (self, values) = (r1, (self1, vs1)) ->
  insert tname keys (self1, vs1) = (r2, (self2, vs2)) ->
  forall (i : nat) (k : string) (f : Field) (v : pyval),
    keys !! i = Some k -> fields table !! k = Some f ->
    values !! i = Some v ->
    vs2 !! i = Some (if is_textual (Py.lower (dtype f))
                     then quoted (quoted v) else v).
Proof.
  intros Htable Hkeys Hrun1 Hrun2 i k f v Hk Hf Hv.
  destruct (insert_run _ _ _ _ _ _ _ _ Htable Hkeys Hrun1)
    as (-> & Htables & _).
  rewrite <- Htables in Htable.
  destruct (insert_run _ _ _ _ _ _ _ _ Htable Hkeys Hrun2) as (-> & _ & _).
  pose proof (lookup_revise_all_key table _ _ _ _ _ Hk Hv) as Hv1.
  rewrite (lookup_revise_all_key table _ _ _ _ _ Hk Hv1).
  rewrite !(revised_found _ _ _ _ Hf).
  by destruct (is_textual _).
Qed.

End Updates.

(** ** The further properties on [people] *)

(** X5 on [people]: it is still in the map after an accepted
    [create_table], a refused [insert] and a [delete]. *)
Lemma table_never_dropped_people :
  let self := people_db ([] : list string) in
  let calls := [CreateTable "pets" id_as_primary
                  [mkField ClsField "name" "TEXT" true None];
                Insert "cats" ["name"] [VStr "Tom"];
                Delete "people" "age" (VInt 30)] in
  is_Some (tables self !! "people") /\
  is_Some (tables (session calls self) !! "people").
Proof.
  intros self calls.
  assert (Hn : is_Some (tables self !! "people")) by (eexists; reflexivity).
  split; [exact Hn |].
  exact (table_never_dropped calls self "people" Hn).
Defined.

(** X6 on [people]: calls that create no table of that name leave its
    entry alone. *)
Lemma only_create_table_alters_people :
  let self := people_db ([] : list string) in
  let calls := [CreateTable "pets" id_as_primary
                  [mkField ClsField "name" "TEXT" true None];
                Update "people" ["age"] [VInt 31] None VNone] in
  Forall (fun c => creates c <> Some "people") calls /\
  tables (session calls self) !! "people" = Some people.
Proof.
  intros self calls.
  assert (Hc : Forall (fun c => creates c <> Some "people") calls).
  { repeat constructor; discriminate. }
  split; [exact Hc |].
  exact (only_create_table_alters calls self "people" Hc).
Defined.

(** X7 on a name the map does not have. *)
Lemma unknown_table_pets :
  let self := people_db ([] : list string) in
  tables self !! "pets" = None /\
  executed (snd (select "pets" None self)) = ["SELECT * from pets"] /\
  fst (search "pets" "name" (VStr "Rex") None self)
  = Raise (KeyError "pets") /\
  executed (snd (search "pets" "name" (VStr "Rex") None self)) = [] /\
  conn_open (snd (search "pets" "name" (VStr "Rex") None self)) = true.
Proof.
  intros self.
  assert (Hnone : tables self !! "pets" = None) by reflexivity.
  destruct (unknown_table self "pets" Hnone) as (Hsel & _ & Hsearch & _).
  split; [exact Hnone |]. split; [exact (proj1 (Hsel None)) |].
  rewrite (Hsearch "name" (VStr "Rex") None). repeat split.
Defined.

(** X8 on a column [people] does not have. *)
Lemma undeclared_key_email :
  let self := people_db ([] : list string) in
  tables self !! "people" = Some people /\
  fields people !! "email" = None /\
  fst (delete "people" "email" (VStr "a@b.c") self)
  = Raise (KeyError "email") /\
  executed (snd (delete "people" "email" (VStr "a@b.c") self)) = [].
Proof.
  intros self.
  assert (Htable : tables self !! "people" = Some people) by reflexivity.
  assert (Hkey : fields people !! "email" = None) by reflexivity.
  destruct (undeclared_key self "people" people "email" Htable Hkey)
    as (_ & _ & Hdel & _).
  split; [exact Htable |]. split; [exact Hkey |].
  rewrite (Hdel (VStr "a@b.c")). split; reflexivity.
Defined.

(** X9 on the INTEGER column of [people], with an integer value. *)
Lemma search_delete_predicate_people :
  let self := people_db ([] : list string) in
  let age := mkField ClsField "age" "INTEGER" true None in
  tables self !! "people" = Some people /\
  fields people !! "age" = Some age /\
  executed (snd (search "people" "age" (VInt 30) None self))
  = ["SELECT * from people where age=30"] /\
  executed (snd (delete "people" "age" (VInt 30) self))
  = ["DELETE from people where age=30"].
Proof.
  intros self age.
  assert (Htable : tables self !! "people" = Some people) by reflexivity.
  assert (Hf : fields people !! "age" = Some age) by reflexivity.
  destruct (search_delete_predicate self "people" people "age" age
              (VInt 30) None Htable Hf) as (Hs & _ & Hd & _).
  split; [exact Htable |]. split; [exact Hf |].
  split; [exact Hs | exact Hd].
Defined.

(** X10 on [people]: two keys, three values, with and without a search
    key. *)
Lemma update_statement_people :
  let self := people_db ([] : list string) in
  let keys := ["name"; "age"] in
  let values := [VStr "Bob"; VInt 31; VNone] in
  tables self !! "people" = Some people /\
  Forall (declared people) keys /\
  length keys <= length values /\
  executed (snd (update "people" keys values (Some "id") (VInt 3) self))
  = ["UPDATE people set name='Bob',age=31 where id=3;"] /\
  executed (snd (update "people" keys values None VNone self))
  = ["UPDATE people set name='Bob',age=31 ;"].
Proof.
  intros self keys values.
  assert (Htable : tables self !! "people" = Some people) by reflexivity.
  assert (Hkeys : Forall (declared people) keys).
  { repeat constructor; eexists; reflexivity. }
  assert (Hlen : length keys <= length values) by (cbn; lia).
  split; [exact Htable |]. split; [exact Hkeys |]. split; [exact Hlen |].
  split.
  - refine (proj1 (update_statement self "people" people keys values
                     (Some "id") (VInt 3) Htable Hkeys Hlen _)).
    intros k [= <-]. eexists. reflexivity.
  - refine (proj1 (update_statement self "people" people keys values
                     None VNone Htable Hkeys Hlen _)).
    intros k Hk. discriminate Hk.
Defined.

(** X11 on [people]: two keys, one value. *)
Lemma update_arity_people :
  let self := people_db ([] : list string) in
  let keys := ["name"; "age"] in
  let values := [VStr "Bob"] in
  tables self !! "people" = Some people /\
  Forall (declared people) keys /\
  length values < length keys /\
  fst (update "people" keys values None VNone self) = Raise IndexError /\
  executed (snd (update "people" keys values None VNone self)) = [].
Proof.
  intros self keys values.
  assert (Htable : tables self !! "people" = Some people) by reflexivity.
  assert (Hkeys : Forall (declared people) keys).
  { repeat constructor; eexists; reflexivity. }
  assert (Hlen : length values < length keys) by (cbn; lia).
  split; [exact Htable |]. split; [exact Hkeys |]. split; [exact Hlen |].
  rewrite (update_arity self "people" people keys values None VNone
             Htable Hkeys Hlen).
  split; reflexivity.
Defined.

(** X12 on [people]: "Alice" is "''Alice''" after two calls with the same
    list. *)
Lemma insert_twice_people :
  let self := people_db ([] : list string) in
  let keys := ["name"; "age"] in
  let first := insert "people" keys (self, [VStr "Alice"; VStr "30"]) in
  let second := insert "people" keys (fst (snd first), snd (snd first)) in
  tables self !! "people" = Some people /\
  Forall (declared people) keys /\
  snd (snd second) !! 0%nat = Some (VStr "''Alice''") /\
  snd (snd second) !! 1%nat = Some (VStr "30").
Proof.
  intros self keys first second.
  assert (Htable : tables self !! "people" = Some people) by reflexivity.
  assert (Hkeys : Forall (declared people) keys).
  { repeat constructor; eexists; reflexivity. }
  assert (Hrun1 : insert "people" keys (self, [VStr "Alice"; VStr "30"])
                  = (fst first, (fst (snd first), snd (snd first))))
    by reflexivity.
  assert (Hrun2 : insert "people" keys (fst (snd first), snd (snd first))
                  = (fst second, (fst (snd second), snd (snd second))))
    by reflexivity.
  pose proof (insert_twice_quotes_twice _ _ _ _ _ _ _ _ _ _ _
                Htable Hkeys Hrun1 Hrun2) as Htwice.
  split; [exact Htable |]. split; [exact Hkeys |]. split.
  - exact (Htwice 0%nat "name" (mkField ClsField "name" "TEXT" true None)
             (VStr "Alice") eq_refl eq_refl eq_refl).
  - exact (Htwice 1%nat "age" (mkField ClsField "age" "INTEGER" true None)
             (VStr "30") eq_refl eq_refl eq_refl).
Defined.

(** ** Which call raises what *)

Lemma revise_values_error_kind (table : Table) (keys : list string) :
  forall (idx : nat) (values vs' : list pyval) (e : pyerr),
  revise_values table idx keys values = (Raise e, vs') ->
  e = IndexError \/ exists k : string, e = KeyError k.
Proof.
  induction keys as [|key keys IH]; intros idx values vs' e; [done |].
  cbn [revise_values]. unfold bind at 1, get.
  destruct (values !! idx) as [v|]; [| intros [= <- _]; by left].
  unfold bind at 1, lift.
  destruct (revise_data table key v) as [v'|e'] eqn:Hv.
  - unfold bind at 1, put. apply IH.
  - apply revise_data_error in Hv as [-> _]. intros [= <- _]. right. eauto.
Qed.

Lemma update_items_error_kind (table : Table) (keys : list string) :
  forall (idx : nat) (values : list pyval) (e : pyerr),
  update_items table idx keys values = Raise e ->
  e = IndexError \/ exists k : string, e = KeyError k.
Proof.
  induction keys as [|key keys IH]; intros idx values e; [done |].
  cbn [update_items].
  destruct (values !! idx) as [v|]; [| intros [= <-]; by left].
  destruct (revise_data table key v) as [v'|e'] eqn:Hv.
  - destruct (update_items table (S idx) keys values) eqn:Hrest; [done |].
    intros [= <-]. by eapply IH.
  - apply revise_data_error in Hv as [-> _]. intros [= <-]. right. eauto.
Qed.

Lemma join_values_error_kind (sep : string) (values : list pyval)
    (e : pyerr) :
  join_values sep values = Raise e -> e = TypeError.
Proof.
  destruct (join_values_spec sep values) as [[_ ->]|[_ ->]]; [done |].
  by intros [= <-].
Qed.

Section Errors.
Context {Store : Type} `{Sqlite Store}.

Local Ltac run_call :=
  unfold create_table, insert, select, search, search_by_range, update,
    delete, delete_by_time, bind, connect, get_table, lift, execute, commit,
    close, set_table, ret, on_fst, on_snd, get;
  cbn.

Local Ltac kind :=
  repeat match goal with
    | H : revise_data _ _ _ = Raise _ |- _ =>
        apply revise_data_error in H as [-> _]
    | H : revise_values _ _ _ _ = (Raise _, _) |- _ =>
        apply revise_values_error_kind in H as [->|[? ->]]
    | H : join_values _ _ = Raise _ |- _ =>
        apply join_values_error_kind in H as ->
    | H : update_items _ _ _ _ = Raise _ |- _ =>
        apply update_items_error_kind in H as [->|[? ->]]
    end.

(** X15.  TypeError can only come out of [insert], IndexError only out of
    [insert] and [update], and [create_table] and [select] raise nothing
    but what the store raises. *)
Theorem error_sources (c : call) (self : Database Store) (e : pyerr) :
  fst (perform c self) = Some e -> may_raise c e.
Proof.
  destruct c; cbn [perform]; run_call; repeat case_match; simplify_eq;
    cbn; intros [= <-]; kind; exact I.
Qed.

(** X13.  Once [create_table] has returned, the new table is in the map
    and every column passed to it, the primary key included, is declared
    under its name, by a field of that name taken from the arguments. *)
Theorem created_table_columns (self : Database Store) (tname : string)
    (pk : Field) (l : list Field) (f : Field) :
  fst (create_table tname pk l self) = Ok tt ->
  f ∈ pk :: l ->
  exists (table : Table) (g : Field),
    tables (snd (create_table tname pk l self)) !! tname = Some table /\
    get_field table (name f) = Ok g /\
    name g = name f /\ g ∈ pk :: l.
Proof.
  intros Hok Hf.
  assert (Htables : tables (snd (create_table tname pk l self))
                    = <[tname := Table_init tname pk l]> (tables self)).
  { revert Hok. run_call. repeat case_match; simplify_eq; cbn; done. }
  destruct (last (named (name f) (pk :: l))) as [g|] eqn:Hlast.
  - exists (Table_init tname pk l), g.
    rewrite Htables, lookup_insert_eq.
    unfold get_field, Table_init. cbn [fields].
    rewrite fields_loop_lookup, Hlast.
    apply last_Some_elem_of, list_elem_of_filter in Hlast as [? ?].
    done.
  - apply last_None in Hlast.
    assert (Hin : f ∈ named (name f) (pk :: l))
      by (by apply list_elem_of_filter).
    rewrite Hlast in Hin. by apply not_elem_of_nil in Hin.
Qed.

(** X14.  With both bounds None, on a known table and a declared key,
    [search_by_range] and [delete_by_time] take the branch of a missing
    [start]: the predicate is [key<=None], with 'None' between quotes for
    a textual column, and the statement is executed as for any other
    bound. *)
Theorem range_both_none (self : Database Store) (tname : string)
    (table : Table) (key : string) (f : Field)
    (columns : option (list string)) :
  tables self !! tname = Some table ->
  fields table !! key = Some f ->
  let bound := if is_textual (Py.lower (dtype f)) then "'None'" else "None" in
  executed (snd (search_by_range tname key VNone VNone columns self))
  = executed self ++
    [select_text tname columns +:+ " where " +:+ key +:+ "<=" +:+
     bound +:+ ";"] /\
  executed (snd (delete_by_time tname key VNone VNone self))
  = executed self ++
    ["DELETE from " +:+ tname +:+ " where " +:+ key +:+ "<=" +:+ bound].
Proof.
  intros Htable Hf bound.
  rewrite (search_by_range_run _ _ _ _ _ _ _ _ Htable Hf).
  rewrite (delete_by_time_run _ _ _ _ _ _ _ Htable Hf).
  assert (Hp : range_predicate key f VNone VNone = key +:+ "<=" +:+ bound).
  { unfold range_predicate, bound_text, bound. cbn.
    by destruct (is_textual _). }
  rewrite Hp, !string_app_assoc. split.
  - apply (execute_close _ (snd (connect self))).
  - apply (execute_commit_close _ (snd (connect self))).
Qed.

End Errors.

(** X13 on a new table "pets". *)
Lemma created_table_columns_pets :
  let self := people_db ([] : list string) in
  let owner := mkField ClsField "owner" "VARCHAR(20)" false None in
  let run := create_table "pets" id_as_primary [owner] self in
  fst run = Ok tt /\
  owner ∈ [id_as_primary; owner] /\
  exists table : Table,
    tables (snd run) !! "pets" = Some table /\
    get_field table "owner" = Ok owner.
Proof.
  intros self owner run.
  assert (Hok : fst run = Ok tt) by reflexivity.
  assert (Hin : owner ∈ [id_as_primary; owner]).
  { apply elem_of_cons. right. apply elem_of_cons. by left. }
  split; [exact Hok |]. split; [exact Hin |].
  destruct (created_table_columns self "pets" id_as_primary [owner] owner
              Hok Hin) as (table & g & Ht & _).
  exists (Table_init "pets" id_as_primary [owner]).
  split; reflexivity.
Defined.

(** X14 on the two kinds of column of [people]. *)
Lemma range_both_none_people :
  let self := people_db ([] : list string) in
  tables self !! "people" = Some people /\
  fields people !! "name"
  = Some (mkField ClsField "name" "TEXT" true None) /\
  executed (snd (search_by_range "people" "name" VNone VNone None self))
  = ["SELECT * from people where name<='None';"] /\
  executed (snd (delete_by_time "people" "name" VNone VNone self))
  = ["DELETE from people where name<='None'"].
Proof.
  intros self.
  assert (Htable : tables self !! "people" = Some people) by reflexivity.
  split; [exact Htable |]. split; [reflexivity |].
  exact (range_both_none self "people" people "name" _ None Htable eq_refl).
Defined.

(** X15 on [people]: the TypeError of an [insert]. *)
Lemma error_sources_insert :
  let self := people_db ([] : list string) in
  let c := Insert "people" ["age"] [VInt 30] in
  fst (perform c self) = Some TypeError /\ may_raise c TypeError.
Proof.
  intros self c.
  assert (He : fst (perform c self) = Some TypeError) by reflexivity.
  split; [exact He |]. exact (error_sources c self TypeError He).
Defined.
